(** * http-client.py: the load generator's threads, counters and reports

    A transition-system model of [src/http-client.py].  Every thread of the
    program (the workers, the statistics reporter and the main thread running
    [send_load]) is a small machine whose program counter names the source
    line it is about to execute; one step executes one statement.  The module
    level variables of the script are one shared record, and the lock is a
    field of it.  Python integers are [Z]; the floats returned by
    [time.time()] and produced by [/] are modelled by exact rationals [Q]. *)

From Stdlib Require Import ZArith QArith Lia Bool.
From stdpp Require Import base list.

Open Scope Z_scope.

(** ** Exceptions and results *)

Inductive exn := ZeroDivisionError.

Inductive result (A : Type) :=
| Ok (a : A)
| Raise (e : exn).
Arguments Ok {A} a.
Arguments Raise {A} e.

(** [y < x] on rationals, as a boolean (Python's [x > y]). *)
Definition Qgtb (x y : Q) : bool :=
  (Qnum y * QDen x <? Qnum x * QDen y)%Z.

(** Python's true division [a / b]: raises when the divisor is zero.  The
    quotient of two floats is rounded by Python; here it is the exact
    rational, so only what does not depend on the rounding is stated of it. *)
Definition py_div (a b : Q) : result Q :=
  if Qeq_bool b 0 then Raise ZeroDivisionError else Ok (a / b)%Q.

(** ** Transport port: what [session.get(url, timeout=timeout)] does *)

(** A request is answered, or it raises a [RequestException], which line 45
    catches.  An exception of another class (a [ValueError] for a timeout
    that is not positive, a [LocationParseError] for a malformed host) is not
    caught and ends the worker's thread with nothing counted; the runs
    described here are those in which no request does that. *)

Inductive TransportResult :=
| Response (status_code : Z)
| RequestException.

(** ** The statistics queue, [queue.Queue(maxsize=...)] *)

(** [(thread_id, status_code, time.time())] *)
Definition RequestEvent : Type := nat * Z * Q.

Record Queue := { maxsize : Z; items : list RequestEvent }.

(** [Queue.put] waits while [maxsize > 0 and qsize() >= maxsize]. *)
Definition full (q : Queue) : bool :=
  (0 <? maxsize q) && (maxsize q <=? Z.of_nat (length (items q))).

(** A blocking [put]: [None] means the caller is waiting for a free slot. *)
Definition put (q : Queue) (e : RequestEvent) : option Queue :=
  if full q then None
  else Some {| maxsize := maxsize q; items := items q ++ [e] |}.

(** ** Shared variables *)

(** The globals of lines 13-18, and the queue object that [send_load] hands
    to every thread.  [stats_lock] is [Some i] while worker [i] is inside a
    [with stats_lock:] block (the owner is kept for the proofs only; Python's
    lock just knows that it is taken). *)
Record Shared := {
  total_requests : Z;
  successful_requests : Z;
  failed_requests : Z;
  stats_lock : option nat;
  running : bool;
  start_time : Q;
  stats_queue : option Queue
}.

Definition set_total_requests (v : Z) (g : Shared) : Shared :=
  {| total_requests := v;
     successful_requests := successful_requests g;
     failed_requests := failed_requests g;
     stats_lock := stats_lock g;
     running := running g;
     start_time := start_time g;
     stats_queue := stats_queue g |}.

Definition set_successful_requests (v : Z) (g : Shared) : Shared :=
  {| total_requests := total_requests g;
     successful_requests := v;
     failed_requests := failed_requests g;
     stats_lock := stats_lock g;
     running := running g;
     start_time := start_time g;
     stats_queue := stats_queue g |}.

Definition set_failed_requests (v : Z) (g : Shared) : Shared :=
  {| total_requests := total_requests g;
     successful_requests := successful_requests g;
     failed_requests := v;
     stats_lock := stats_lock g;
     running := running g;
     start_time := start_time g;
     stats_queue := stats_queue g |}.

Definition set_stats_lock (v : option nat) (g : Shared) : Shared :=
  {| total_requests := total_requests g;
     successful_requests := successful_requests g;
     failed_requests := failed_requests g;
     stats_lock := v;
     running := running g;
     start_time := start_time g;
     stats_queue := stats_queue g |}.

Definition set_running (v : bool) (g : Shared) : Shared :=
  {| total_requests := total_requests g;
     successful_requests := successful_requests g;
     failed_requests := failed_requests g;
     stats_lock := stats_lock g;
     running := v;
     start_time := start_time g;
     stats_queue := stats_queue g |}.

Definition set_stats_queue (v : option Queue) (g : Shared) : Shared :=
  {| total_requests := total_requests g;
     successful_requests := successful_requests g;
     failed_requests := failed_requests g;
     stats_lock := stats_lock g;
     running := running g;
     start_time := start_time g;
     stats_queue := v |}.

(** ** Console output *)

Inductive Line :=
| StartBanner (threads : nat)                                 (* lines 115-117 *)
| StatsLine (requests : Z) (rate avg success : Q) (threads : Z) (* lines 72-76 *)
| ShutdownNotice                                              (* line 85 *)
| FinalHeader                                                 (* line 148 *)
| FinalTotal (n : Z)                                          (* line 149 *)
| FinalSuccessful (n : Z) (percent : Q)                       (* line 150 *)
| FinalFailed (n : Z) (percent : Q)                           (* line 151 *)
| FinalTime (seconds : Q)                                     (* line 152 *)
| FinalRate (rate : Q).                                       (* line 153 *)

(** ** worker (lines 20-49) *)

(** The line a worker is about to execute. *)
Inductive wpc :=
| W28      (* while running: *)
| W30      (* response = session.get(...); status_code = response.status_code *)
| W33      (* with stats_lock:            (acquire) *)
| W34      (*     total_requests += 1 *)
| W35      (*     local_count += 1 *)
| W36      (*     if 200 <= status_code < 400: *)
| W37      (*         successful_requests += 1 *)
| W39      (*         failed_requests += 1 *)
| W40      (* end of the with block       (release) *)
| W42      (* if stats_queue is not None: *)
| W43      (*     stats_queue.put((thread_id, status_code, time.time())) *)
| W46      (* except RequestException: with stats_lock:   (acquire) *)
| W47      (*     total_requests += 1 *)
| W48      (*     local_count += 1 *)
| W49      (*     failed_requests += 1 *)
| W50      (* end of the with block       (release) *)
| Wreturn. (* the loop has ended *)

Record Worker := { pc : wpc; status_code : Z; local_count : Z }.

Definition goto (l : wpc) (w : Worker) : Worker :=
  {| pc := l; status_code := status_code w; local_count := local_count w |}.

(** Line 26. [status_code] is unbound until line 31 assigns it. *)
Definition worker_start : Worker :=
  {| pc := W28; status_code := 0; local_count := 0 |}.

(** Line 36. *)
Definition is_success (status_code : Z) : bool :=
  (200 <=? status_code) && (status_code <? 400).

(** One statement of worker [thread_id].  [resp] is what the transport
    answers if the statement is the request of line 30, and [now] what
    [time.time()] returns if it is line 43.  [None]: the statement cannot
    proceed (the lock is taken, the queue is full, or the thread is over). *)
Definition worker_step (thread_id : nat) (resp : TransportResult) (now : Q)
    (g : Shared) (w : Worker) : option (Shared * Worker) :=
  match pc w with
  | W28 => Some (g, goto (if running g then W30 else Wreturn) w)
  | W30 =>
      match resp with
      | Response sc =>
          Some (g, {| pc := W33; status_code := sc; local_count := local_count w |})
      | RequestException => Some (g, goto W46 w)
      end
  | W33 =>
      match stats_lock g with
      | None => Some (set_stats_lock (Some thread_id) g, goto W34 w)
      | Some _ => None
      end
  | W34 => Some (set_total_requests (total_requests g + 1) g, goto W35 w)
  | W35 =>
      Some (g, {| pc := W36; status_code := status_code w;
                  local_count := local_count w + 1 |})
  | W36 => Some (g, goto (if is_success (status_code w) then W37 else W39) w)
  | W37 =>
      Some (set_successful_requests (successful_requests g + 1) g, goto W40 w)
  | W39 => Some (set_failed_requests (failed_requests g + 1) g, goto W40 w)
  | W40 => Some (set_stats_lock None g, goto W42 w)
  | W42 =>
      Some (g, goto (match stats_queue g with Some _ => W43 | None => W28 end) w)
  | W43 =>
      match stats_queue g with
      | Some q =>
          match put q (thread_id, status_code w, now) with
          | Some q' => Some (set_stats_queue (Some q') g, goto W28 w)
          | None => None
          end
      | None => None
      end
  | W46 =>
      match stats_lock g with
      | None => Some (set_stats_lock (Some thread_id) g, goto W47 w)
      | Some _ => None
      end
  | W47 => Some (set_total_requests (total_requests g + 1) g, goto W48 w)
  | W48 =>
      Some (g, {| pc := W49; status_code := status_code w;
                  local_count := local_count w + 1 |})
  | W49 => Some (set_failed_requests (failed_requests g + 1) g, goto W50 w)
  | W50 => Some (set_stats_lock None g, goto W28 w)
  | Wreturn => None
  end.

(** One pass through the loop body run without interference: the worker's
    statements from line 30 on are executed until it is back at line 28, or
    until one of them cannot proceed.  The boolean of the result tells
    whether the body was completed. *)
Fixpoint worker_body (fuel : nat) (thread_id : nat) (resp : TransportResult)
    (now : Q) (g : Shared) (w : Worker) : Shared * Worker * bool :=
  match fuel with
  | O => (g, w, false)
  | S fuel' =>
      match worker_step thread_id resp now g w with
      | None => (g, w, false)
      | Some (g', w') =>
          match pc w' with
          | W28 => (g', w', true)
          | _ => worker_body fuel' thread_id resp now g' w'
          end
      end
  end.

(** The longest path through the body (lines 30 to 43) has nine statements. *)
Definition body_fuel : nat := 9.

(** ** stats_reporter (lines 51-80) *)

Inductive rpc :=
| R55      (* last_total = 0; last_time = time.time() *)
| R58      (* while running: *)
| R59      (*     time.sleep(interval) *)
| R60      (*     current_time = time.time() *)
| R61      (*     current_total = total_requests *)
| R63      (*     elapsed, requests_since_last, rps        (lines 63-65) *)
| R67      (*     total_elapsed, total_rps                 (lines 67-68) *)
| R70      (*     success_rate = ... successful_requests ... *)
| R72      (*     print(...); sys.stdout.flush()           (lines 72-78) *)
| R79      (*     last_total = current_total; last_time = current_time *)
| Rreturn
| Rraised (e : exn).

Record Reporter := {
  rpc_of : rpc;
  last_total : Z;
  last_time : Q;
  current_time : Q;
  current_total : Z;
  rps : Q;
  total_rps : Q;
  success_rate : Q
}.

Definition rgoto (l : rpc) (r : Reporter) : Reporter :=
  {| rpc_of := l; last_total := last_total r; last_time := last_time r;
     current_time := current_time r; current_total := current_total r;
     rps := rps r; total_rps := total_rps r; success_rate := success_rate r |}.

(** The reporter when its thread is started; its locals are still unbound. *)
Definition reporter_start : Reporter :=
  {| rpc_of := R55; last_total := 0; last_time := 0%Q; current_time := 0%Q;
     current_total := 0; rps := 0%Q; total_rps := 0%Q; success_rate := 0%Q |}.

(** Lines 63-65. *)
Definition compute_rps (current_total last_total : Z) (current_time last_time : Q)
    : result Q :=
  let elapsed := (current_time - last_time)%Q in
  let requests_since_last := current_total - last_total in
  if Qgtb elapsed 0 then py_div (inject_Z requests_since_last) elapsed
  else Ok 0%Q.

(** Lines 67-68. *)
Definition compute_total_rps (current_total : Z) (current_time start_time : Q)
    : result Q :=
  let total_elapsed := (current_time - start_time)%Q in
  if Qgtb total_elapsed 0 then py_div (inject_Z current_total) total_elapsed
  else Ok 0%Q.

(** Line 70. *)
Definition compute_success_rate (successful_requests current_total : Z)
    : result Q :=
  if 0 <? current_total then
    match py_div (inject_Z successful_requests) (inject_Z current_total) with
    | Ok x => Ok (x * 100)%Q
    | Raise e => Raise e
    end
  else Ok 0%Q.

(** The continuation after an expression that may raise. *)
Definition rassign (v : result Q) (k : Q -> Reporter) (r : Reporter) : Reporter :=
  match v with
  | Ok x => k x
  | Raise e => rgoto (Rraised e) r
  end.

(** One statement of the reporter.  [now] is what [time.time()] returns and
    [active] what [threading.active_count()] returns, when the statement
    calls them.  The result is the reporter afterwards and what it printed.
    The [time.sleep(interval)] of line 59 is taken to return, as it does for
    every interval that is not negative (for a negative one it raises
    [ValueError] and ends the reporter before its first tick). *)
Definition reporter_step (now : Q) (active : Z) (g : Shared) (r : Reporter)
    : option (Reporter * list Line) :=
  match rpc_of r with
  | R55 =>
      Some ({| rpc_of := R58; last_total := 0; last_time := now;
               current_time := current_time r; current_total := current_total r;
               rps := rps r; total_rps := total_rps r;
               success_rate := success_rate r |}, [])
  | R58 => Some (rgoto (if running g then R59 else Rreturn) r, [])
  | R59 => Some (rgoto R60 r, [])
  | R60 =>
      Some ({| rpc_of := R61; last_total := last_total r; last_time := last_time r;
               current_time := now; current_total := current_total r;
               rps := rps r; total_rps := total_rps r;
               success_rate := success_rate r |}, [])
  | R61 =>
      Some ({| rpc_of := R63; last_total := last_total r; last_time := last_time r;
               current_time := current_time r; current_total := total_requests g;
               rps := rps r; total_rps := total_rps r;
               success_rate := success_rate r |}, [])
  | R63 =>
      Some (rassign
              (compute_rps (current_total r) (last_total r)
                           (current_time r) (last_time r))
              (fun x =>
                 {| rpc_of := R67; last_total := last_total r;
                    last_time := last_time r; current_time := current_time r;
                    current_total := current_total r;
                    rps := x; total_rps := total_rps r;
                    success_rate := success_rate r |}) r, [])
  | R67 =>
      Some (rassign
              (compute_total_rps (current_total r) (current_time r) (start_time g))
              (fun x =>
                 {| rpc_of := R70; last_total := last_total r;
                    last_time := last_time r; current_time := current_time r;
                    current_total := current_total r;
                    rps := rps r; total_rps := x;
                    success_rate := success_rate r |}) r, [])
  | R70 =>
      Some (rassign
              (compute_success_rate (successful_requests g) (current_total r))
              (fun x =>
                 {| rpc_of := R72; last_total := last_total r;
                    last_time := last_time r; current_time := current_time r;
                    current_total := current_total r;
                    rps := rps r; total_rps := total_rps r;
                    success_rate := x |}) r, [])
  | R72 =>
      Some (rgoto R79 r,
            [StatsLine (current_total r) (rps r) (total_rps r) (success_rate r)
                       (active - 1)])
  | R79 =>
      Some ({| rpc_of := R58; last_total := current_total r;
               last_time := current_time r;
               current_time := current_time r; current_total := current_total r;
               rps := rps r; total_rps := total_rps r;
               success_rate := success_rate r |}, [])
  | Rreturn => None
  | Rraised _ => None
  end.

(** One tick run without interference: the statements from the sleep of
    line 59 to the update of lines 79-80, all reading the same [g]. *)
Fixpoint reporter_tick (fuel : nat) (now : Q) (active : Z) (g : Shared)
    (r : Reporter) (out : list Line) : Reporter * list Line :=
  match fuel with
  | O => (r, out)
  | S fuel' =>
      match reporter_step now active g r with
      | None => (r, out)
      | Some (r', printed) =>
          match rpc_of r' with
          | R58 => (r', out ++ printed)
          | _ => reporter_tick fuel' now active g r' (out ++ printed)
          end
      end
  end.

(** Lines 59 to 79 are eight statements. *)
Definition tick_fuel : nat := 8.

(** ** send_load (lines 88-153) *)

Inductive mpc :=
| M134     (* while running: time.sleep(0.1) *)
| M140     (* for t in worker_threads: t.join(timeout=1.0) *)
| M144     (* end_time = time.time(); total_time = end_time - start_time *)
| M146     (* final_rps = total_requests / total_time if total_time > 0 else 0 *)
| M148     (* print("--- Final Results ---") *)
| M149     (* print total *)
| M150     (* print successful and its percentage *)
| M151     (* print failed and its percentage *)
| M152     (* print total time *)
| M153     (* print average rate *)
| Mreturn
| Mraised (e : exn).

Record Main := { mpc_of : mpc; total_time : Q; final_rps : Q }.

Definition mgoto (l : mpc) (m : Main) : Main :=
  {| mpc_of := l; total_time := total_time m; final_rps := final_rps m |}.

(** Line 146. *)
Definition compute_final_rps (total_requests : Z) (total_time : Q) : result Q :=
  if Qgtb total_time 0 then py_div (inject_Z total_requests) total_time
  else Ok 0%Q.

(** The expression [count/total_requests*100] of lines 150 and 151. *)
Definition percentage (count total_requests : Z) : result Q :=
  match py_div (inject_Z count) (inject_Z total_requests) with
  | Ok x => Ok (x * 100)%Q
  | Raise e => Raise e
  end.

(** One statement of the main thread once the threads are started.  The
    joins of line 141 carry a timeout, so they complete whatever the
    workers do.  Line 110 has replaced Python's default handler of SIGINT,
    so Ctrl+C runs [handle_sigint] and the [except KeyboardInterrupt] of
    line 136 is not entered.  Each [print] reads the globals it shows in one
    step. *)
Definition main_step (now : Q) (g : Shared) (m : Main)
    : option (Main * list Line) :=
  match mpc_of m with
  | M134 => Some (mgoto (if running g then M134 else M140) m, [])
  | M140 => Some (mgoto M144 m, [])
  | M144 =>
      Some ({| mpc_of := M146; total_time := (now - start_time g)%Q;
               final_rps := final_rps m |}, [])
  | M146 =>
      match compute_final_rps (total_requests g) (total_time m) with
      | Ok x =>
          Some ({| mpc_of := M148; total_time := total_time m; final_rps := x |}, [])
      | Raise e => Some (mgoto (Mraised e) m, [])
      end
  | M148 => Some (mgoto M149 m, [FinalHeader])
  | M149 => Some (mgoto M150 m, [FinalTotal (total_requests g)])
  | M150 =>
      match percentage (successful_requests g) (total_requests g) with
      | Ok p => Some (mgoto M151 m, [FinalSuccessful (successful_requests g) p])
      | Raise e => Some (mgoto (Mraised e) m, [])
      end
  | M151 =>
      match percentage (failed_requests g) (total_requests g) with
      | Ok p => Some (mgoto M152 m, [FinalFailed (failed_requests g) p])
      | Raise e => Some (mgoto (Mraised e) m, [])
      end
  | M152 => Some (mgoto M153 m, [FinalTime (total_time m)])
  | M153 => Some (mgoto Mreturn m, [FinalRate (final_rps m)])
  | Mreturn => None
  | Mraised _ => None
  end.

(** ** The whole program *)

Record Sys := {
  shared : Shared;
  workers : list Worker;
  reporter : Reporter;
  main : Main;
  stdout : list Line
}.

(** Lines 102-130: the state when [send_load] has reset the globals,
    created the queue and started the reporter and the [threads] workers.
    [now] is the [time.time()] of line 107.  The threads are started one
    after the other, the reporter first (line 122); a thread that runs before
    the last worker is started sees the same shared variables as here, and a
    smaller [threading.active_count()]. *)
Definition send_load_start (threads : nat) (detailed : bool) (now : Q) : Sys :=
  {| shared :=
       {| total_requests := 0;
          successful_requests := 0;
          failed_requests := 0;
          stats_lock := None;
          running := true;
          start_time := now;
          stats_queue :=
            if detailed then Some {| maxsize := 10000; items := [] |} else None |};
     workers := replicate threads worker_start;
     reporter := reporter_start;
     main := {| mpc_of := M134; total_time := 0%Q; final_rps := 0%Q |};
     stdout := [StartBanner threads] |}.

(** handle_sigint (lines 82-86). *)
Definition handle_sigint (s : Sys) : Sys :=
  {| shared := set_running false (shared s);
     workers := workers s;
     reporter := reporter s;
     main := main s;
     stdout := stdout s ++ [ShutdownNotice] |}.

Definition is_alive (w : Worker) : bool :=
  match pc w with Wreturn => false | _ => true end.

(** [threading.active_count()]: the main thread, the reporter and the
    workers that have not returned. *)
Definition active_count (s : Sys) : Z :=
  2 + Z.of_nat (length (List.filter is_alive (workers s))).

(** The process is over when [send_load] has returned or raised: the
    threads are daemons. *)
Definition exited (s : Sys) : bool :=
  match mpc_of (main s) with
  | Mreturn | Mraised _ => true
  | _ => false
  end.

(** What can happen next: a thread executes its next statement, or the
    operator presses Ctrl+C. *)
Inductive op :=
| OpWorker (thread_id : nat) (resp : TransportResult) (now : Q)
| OpReporter (now : Q)
| OpMain (now : Q)
| OpSigint.

Definition exec (o : op) (s : Sys) : option Sys :=
  if exited s then None else
  match o with
  | OpWorker i resp now =>
      match workers s !! i with
      | Some w =>
          match worker_step i resp now (shared s) w with
          | Some (g', w') =>
              Some {| shared := g'; workers := <[i := w']> (workers s);
                      reporter := reporter s; main := main s;
                      stdout := stdout s |}
          | None => None
          end
      | None => None
      end
  | OpReporter now =>
      match reporter_step now (active_count s) (shared s) (reporter s) with
      | Some (r', printed) =>
          Some {| shared := shared s; workers := workers s;
                  reporter := r'; main := main s;
                  stdout := stdout s ++ printed |}
      | None => None
      end
  | OpMain now =>
      match main_step now (shared s) (main s) with
      | Some (m', printed) =>
          Some {| shared := shared s; workers := workers s;
                  reporter := reporter s; main := m';
                  stdout := stdout s ++ printed |}
      | None => None
      end
  | OpSigint => Some (handle_sigint s)
  end.

(** A schedule is a list of operations; [run] executes it, and is [None]
    when some operation of it was not possible. *)
Fixpoint run (ops : list op) (s : Sys) : option Sys :=
  match ops with
  | [] => Some s
  | o :: ops' =>
      match exec o s with
      | Some s' => run ops' s'
      | None => None
      end
  end.

(** The states of a run of [send_load]. *)
Definition reachable (s : Sys) : Prop :=
  exists threads detailed now ops,
    run ops (send_load_start threads detailed now) = Some s.

(** * Definitions used by the statements *)

(** The outcome of an attempt counts as a success: a response came back and
    its status code is in [200,400). *)
Definition attempt_succeeded (resp : TransportResult) : Prop :=
  match resp with
  | Response sc => 200 <= sc < 400
  | RequestException => False
  end.

(** The globals as lines 103-107 leave them, at time 0, with the given
    queue. *)
Definition shared0 (qu : option Queue) : Shared :=
  {| total_requests := 0; successful_requests := 0; failed_requests := 0;
     stats_lock := None; running := true; start_time := 0%Q;
     stats_queue := qu |}.


(** The lines of the [except] branch. *)
Definition in_except (l : wpc) : bool :=
  match l with
  | W46 | W47 | W48 | W49 | W50 => true
  | _ => false
  end.

(** A queue holding [maxsize] events. *)
Definition full_queue : Queue :=
  {| maxsize := 10000; items := replicate (Z.to_nat 10000) (0%nat, 200, 0%Q) |}.

(** Two states that differ at most in what is on the console. *)
Definition same_state (s1 s2 : Sys) : Prop :=
  shared s1 = shared s2 /\ workers s1 = workers s2 /\
  reporter s1 = reporter s2 /\ main s1 = main s2.

(** The lines inside a [with stats_lock:] block. *)
Definition critical (l : wpc) : bool :=
  match l with
  | W34 | W35 | W36 | W37 | W39 | W40 | W47 | W48 | W49 | W50 => true
  | _ => false
  end.

(** 1 on the lines where this worker has added its attempt to
    [total_requests] and not yet to [successful_requests] or
    [failed_requests]. *)
Definition uncounted (l : wpc) : Z :=
  match l with
  | W35 | W36 | W37 | W39 | W48 | W49 => 1
  | _ => 0
  end.

(** 1 on the lines where this worker has added its attempt to
    [total_requests] and not yet to its [local_count]. *)
Definition unlogged (l : wpc) : Z :=
  match l with
  | W35 | W48 => 1
  | _ => 0
  end.

(** The sum of [f] over a list. *)
Definition sumZ {A : Type} (f : A -> Z) (l : list A) : Z :=
  foldr (fun x acc => f x + acc) 0 l.

(** The reporter's thread has ended with an exception. *)
Definition raised (r : Reporter) : bool :=
  match rpc_of r with Rraised _ => true | _ => false end.

(** The invariant: every attempt added to [total_requests] is either in
    [successful_requests] or [failed_requests] already, or belongs to a
    worker that stands between the two additions; likewise for the workers'
    own counts; a worker is inside a [with] block exactly when it owns the
    lock; and what the reporter remembers never runs ahead of the counter. *)
Record Inv (s : Sys) : Prop := {
  inv_counted :
    total_requests (shared s) =
      successful_requests (shared s) + failed_requests (shared s)
      + sumZ (fun w => uncounted (pc w)) (workers s);
  inv_logged :
    total_requests (shared s) =
      sumZ (fun w => local_count w + unlogged (pc w)) (workers s);
  inv_lock :
    forall i w, workers s !! i = Some w ->
      (critical (pc w) = true <-> stats_lock (shared s) = Some i);
  inv_nonneg :
    0 <= successful_requests (shared s) /\ 0 <= failed_requests (shared s);
  inv_reporter :
    0 <= last_total (reporter s) <= current_total (reporter s) /\
    current_total (reporter s) <= total_requests (shared s) /\
    raised (reporter s) = false
}.

(** Two workers, one answered 200 and one refused, with the reporter and a
    Ctrl+C in between. *)
Definition mixed_schedule : list op :=
  [OpWorker 0 (Response 200) 1%Q; OpWorker 1 RequestException 1%Q;
   OpWorker 0 (Response 200) 1%Q; OpWorker 1 RequestException 1%Q;
   OpReporter 1%Q;
   OpWorker 0 (Response 200) 1%Q; OpWorker 0 (Response 200) 1%Q;
   OpWorker 0 (Response 200) 1%Q; OpWorker 0 (Response 200) 1%Q;
   OpWorker 0 (Response 200) 1%Q; OpWorker 0 (Response 200) 1%Q;
   OpSigint;
   OpWorker 1 RequestException 1%Q; OpWorker 1 RequestException 1%Q;
   OpWorker 1 RequestException 1%Q; OpWorker 1 RequestException 1%Q;
   OpWorker 1 RequestException 1%Q;
   OpWorker 0 (Response 200) 1%Q; OpWorker 1 RequestException 1%Q;
   OpWorker 0 (Response 200) 1%Q].

(** Where that schedule leads: each worker has completed one attempt and
    left its loop. *)
Definition mixed_final : Sys :=
  {| shared :=
       {| total_requests := 2; successful_requests := 1; failed_requests := 1;
          stats_lock := None; running := false; start_time := 0%Q;
          stats_queue := None |};
     workers :=
       [ {| pc := Wreturn; status_code := 200; local_count := 1 |};
         {| pc := Wreturn; status_code := 0; local_count := 1 |} ];
     reporter :=
       {| rpc_of := R58; last_total := 0; last_time := 1%Q;
          current_time := 0%Q; current_total := 0;
          rps := 0%Q; total_rps := 0%Q; success_rate := 0%Q |};
     main := {| mpc_of := M134; total_time := 0%Q; final_rps := 0%Q |};
     stdout := [StartBanner 2; ShutdownNotice] |}.

(** The reporter reads [total_requests] at line 61 while worker 0 is inside
    its [with stats_lock:] block, between the addition to [total_requests]
    and the one to [successful_requests]: it holds a total of 1 at a moment
    when the other two counters add up to 0. *)
Definition torn_schedule : list op :=
  replicate 4 (OpWorker 0 (Response 200) 1%Q) ++ replicate 5 (OpReporter 1%Q).

(** Where that schedule leads. *)
Definition torn_state : Sys :=
  {| shared :=
       {| total_requests := 1; successful_requests := 0; failed_requests := 0;
          stats_lock := Some 0%nat; running := true; start_time := 0%Q;
          stats_queue := None |};
     workers := [ {| pc := W35; status_code := 200; local_count := 0 |} ];
     reporter :=
       {| rpc_of := R63; last_total := 0; last_time := 1%Q;
          current_time := 1%Q; current_total := 1;
          rps := 0%Q; total_rps := 0%Q; success_rate := 0%Q |};
     main := {| mpc_of := M134; total_time := 0%Q; final_rps := 0%Q |};
     stdout := [StartBanner 1] |}.

(** Thirty attempts, twenty-four of them successful, three seconds after
    the start; the previous tick saw ten attempts at second one. *)
Definition tick_shared : Shared :=
  {| total_requests := 30; successful_requests := 24; failed_requests := 6;
     stats_lock := None; running := true; start_time := 0%Q;
     stats_queue := None |}.

(** The reporter of that example, at its sleep. *)
Definition tick_reporter : Reporter :=
  {| rpc_of := R59; last_total := 10; last_time := 1%Q;
     current_time := 1%Q; current_total := 10;
     rps := 10%Q; total_rps := 10%Q; success_rate := 100%Q |}.

(** The formulas of the specification for the values of a tick, to be
    compared with what lines 63-70 compute. *)
Module TickSpec.

Definition instantRate (total lastTotal : Z) (now lastTime : Q) : Q :=
  let elapsed := (now - lastTime)%Q in
  let deltaRequests := total - lastTotal in
  if Qle_bool elapsed 0 then 0%Q else (inject_Z deltaRequests / elapsed)%Q.

Definition avgRate (total : Z) (now startTime : Q) : Q :=
  let totalElapsed := (now - startTime)%Q in
  if Qle_bool totalElapsed 0 then 0%Q else (inject_Z total / totalElapsed)%Q.

Definition successRate (success total : Z) : Q :=
  if total =? 0 then 0%Q else (inject_Z success / inject_Z total * 100)%Q.

End TickSpec.

(** * Definitions used by the further properties *)

(** A worker scheduled alone for at most [fuel] statements: it stops early
    when its next statement cannot proceed. *)
Fixpoint worker_alone (fuel : nat) (thread_id : nat) (resp : TransportResult)
    (now : Q) (g : Shared) (w : Worker) : Shared * Worker :=
  match fuel with
  | O => (g, w)
  | S fuel' =>
      match worker_step thread_id resp now g w with
      | None => (g, w)
      | Some (g', w') => worker_alone fuel' thread_id resp now g' w'
      end
  end.

(** A worker scheduled alone until it has left the [with stats_lock:]
    block it is in. *)
Fixpoint worker_leave (fuel : nat) (thread_id : nat) (resp : TransportResult)
    (now : Q) (g : Shared) (w : Worker) : Shared * Worker :=
  match fuel with
  | O => (g, w)
  | S fuel' =>
      if critical (pc w) then
        match worker_step thread_id resp now g w with
        | None => (g, w)
        | Some (g', w') => worker_leave fuel' thread_id resp now g' w'
        end
      else (g, w)
  end.

(** The reporter scheduled alone for at most [fuel] statements. *)
Fixpoint reporter_alone (fuel : nat) (now : Q) (active : Z) (g : Shared)
    (r : Reporter) (out : list Line) : Reporter * list Line :=
  match fuel with
  | O => (r, out)
  | S fuel' =>
      match reporter_step now active g r with
      | None => (r, out)
      | Some (r', printed) => reporter_alone fuel' now active g r' (out ++ printed)
      end
  end.

(** The main thread scheduled alone for at most [fuel] statements. *)
Fixpoint main_alone (fuel : nat) (now : Q) (g : Shared) (m : Main)
    (out : list Line) : Main * list Line :=
  match fuel with
  | O => (m, out)
  | S fuel' =>
      match main_step now g m with
      | None => (m, out)
      | Some (m', printed) => main_alone fuel' now g m' (out ++ printed)
      end
  end.

(** The number of events on the queue; 0 when there is no queue. *)
Definition queue_length (g : Shared) : Z :=
  match stats_queue g with
  | Some q => Z.of_nat (length (items q))
  | None => 0
  end.

(** 1 on the lines where this worker has counted a response and has not
    yet passed the [put] of line 43. *)
Definition unqueued (l : wpc) : Z :=
  match l with
  | W35 | W36 | W37 | W39 | W40 | W42 | W43 => 1
  | _ => 0
  end.

(** The request count shown by a line of the reporter. *)
Definition shown (l : Line) : option Z :=
  match l with
  | StatsLine n _ _ _ _ => Some n
  | _ => None
  end.

(** A list of numbers that never goes down, starting at or above [lo]. *)
Fixpoint nondecreasing (lo : Z) (l : list Z) : Prop :=
  match l with
  | [] => True
  | x :: l' => lo <= x /\ nondecreasing x l'
  end.

(** A line of the reporter shows no negative number. *)
Definition nonnegative_line (l : Line) : Prop :=
  match l with
  | StatsLine n rate avg success _ =>
      0 <= n /\ (0 <= rate)%Q /\ (0 <= avg)%Q /\ (0 <= success)%Q
  | _ => True
  end.

(** The schedule never presses Ctrl+C. *)
Definition no_sigint (ops : list op) : Prop :=
  Forall (fun o => o <> OpSigint) ops.

(** Every request of the schedule is answered with a status in [200,400). *)
Definition all_succeed (ops : list op) : Prop :=
  Forall (fun o => match o with
                   | OpWorker _ resp _ => attempt_succeeded resp
                   | _ => True
                   end) ops.

(** Every request of the schedule fails in the transport. *)
Definition all_refused (ops : list op) : Prop :=
  Forall (fun o => match o with
                   | OpWorker _ resp _ => resp = RequestException
                   | _ => True
                   end) ops.

(** A worker that waits at line 43 in front of a full queue, its 10001st
    request counted. *)
Definition waiting_state : Sys :=
  {| shared :=
       set_successful_requests 10001
         (set_total_requests 10001 (shared0 (Some full_queue)));
     workers := [ {| pc := W43; status_code := 200; local_count := 10001 |} ];
     reporter := reporter_start;
     main := {| mpc_of := M134; total_time := 0%Q; final_rps := 0%Q |};
     stdout := [StartBanner 1] |}.

(** The lines of the final report. *)
Definition is_final (l : Line) : bool :=
  match l with
  | FinalHeader | FinalTotal _ | FinalSuccessful _ _ | FinalFailed _ _
  | FinalTime _ | FinalRate _ => true
  | _ => false
  end.

(** What a run of [send_load] with [threads] workers keeps true about its
    threads, its queue and its console. *)
Record Inv2 (threads : nat) (detailed : bool) (s : Sys) : Prop := {
  inv_threads : length (workers s) = threads;
  inv_detailed :
    if detailed then
      exists q, stats_queue (shared s) = Some q /\ maxsize q = 10000 /\
                Z.of_nat (length (items q)) <= 10000 /\
                (forall e, e ∈ items q -> (e.1.1 < threads)%nat)
    else stats_queue (shared s) = None;
  inv_put :
    forall i w, workers s !! i = Some w -> pc w = W43 ->
                stats_queue (shared s) <> None;
  inv_events :
    queue_length (shared s) + sumZ (fun w => unqueued (pc w)) (workers s)
      <= total_requests (shared s);
  inv_main : mpc_of (main s) <> M134 -> running (shared s) = false;
  inv_notice : running (shared s) = false -> ShutdownNotice ∈ stdout s;
  inv_final :
    forall l, l ∈ stdout s -> is_final l = true -> mpc_of (main s) <> M134
}.

(** A worker whose current attempt, if it has one, got a status code in
    [200,400) and is on its way to [successful_requests]. *)
Definition on_success_path (w : Worker) : bool :=
  match pc w with
  | W39 | W46 | W47 | W48 | W49 | W50 => false
  | W33 | W34 | W35 | W36 => is_success (status_code w)
  | _ => true
  end.

(** A worker that is at the head of its loop, in a request, or in the
    [except] branch. *)
Definition on_failure_path (w : Worker) : bool :=
  match pc w with
  | W28 | W30 | W46 | W47 | W48 | W49 | W50 | Wreturn => true
  | _ => false
  end.

(** Nothing has stopped: [running] is true, the main thread is in its wait,
    no worker has left its loop and neither has the reporter. *)
Definition nothing_stopped (s : Sys) : Prop :=
  running (shared s) = true /\
  mpc_of (main s) = M134 /\
  (forall i w, workers s !! i = Some w -> pc w <> Wreturn) /\
  rpc_of (reporter s) <> Rreturn.

(** The owner recorded in the lock is one of the workers. *)
Definition lock_has_holder (s : Sys) : Prop :=
  forall i, stats_lock (shared s) = Some i -> is_Some (workers s !! i).

(** Two workers in detailed mode: worker 0 is about to queue the event of
    a 404, worker 1 is in a request; one event is on the queue. *)
Definition two_workers_state : Sys :=
  {| shared :=
       set_failed_requests 2
         (set_total_requests 2
            (shared0 (Some {| maxsize := 10000;
                              items := [(0%nat, 404, 1%Q)] |})));
     workers := [ {| pc := W43; status_code := 404; local_count := 2 |};
                  goto W30 worker_start ];
     reporter := reporter_start;
     main := {| mpc_of := M134; total_time := 0%Q; final_rps := 0%Q |};
     stdout := [StartBanner 2] |}.

(** What a run keeps true about the lines of the reporter. *)
Record Inv3 (s : Sys) : Prop := {
  inv_shown_sorted : nondecreasing 0 (omap shown (stdout s));
  inv_shown_bound :
    forall n, n ∈ omap shown (stdout s) -> n <= current_total (reporter s);
  inv_lines_nonneg : Forall nonnegative_line (stdout s);
  inv_rates_nonneg :
    (0 <= rps (reporter s))%Q /\ (0 <= total_rps (reporter s))%Q /\
    (0 <= success_rate (reporter s))%Q
}.

(** One worker completes a request, the reporter starts a tick, the worker
    completes two more requests and the reporter prints its line. *)
Definition busy_schedule : list op :=
  replicate 9 (OpWorker 0 (Response 200) 1%Q)
  ++ replicate 7 (OpReporter 1%Q)
  ++ replicate 18 (OpWorker 0 (Response 200) 1%Q)
  ++ replicate 2 (OpReporter 1%Q).

(** The lines of [send_load] after the first percentage of line 150. *)
Definition past_150 (l : mpc) : bool :=
  match l with
  | M151 | M152 | M153 | Mreturn => true
  | _ => false
  end.

(** How [send_load] can end: past line 150 something has been counted, and
    after an exception nothing has. *)
Definition report_outcome (s : Sys) : Prop :=
  (past_150 (mpc_of (main s)) = true -> 0 < total_requests (shared s)) /\
  (forall e, mpc_of (main s) = Mraised e ->
             e = ZeroDivisionError /\ total_requests (shared s) = 0).

(** A line of the reporter shows the thread count [n]. *)
Definition shows_threads (n : Z) (l : Line) : Prop :=
  match l with
  | StatsLine _ _ _ _ t => t = n
  | _ => True
  end.

(** * Definitions used to count the attempts of a run *)

(** The answer of the transport that an operation consumes: the operation
    is an attempt when the statement it executes is the request of line 30. *)
Definition request_of (o : op) (s : Sys) : list TransportResult :=
  match o with
  | OpWorker i resp _ =>
      match workers s !! i with
      | Some w => match pc w with W30 => [resp] | _ => [] end
      | None => []
      end
  | _ => []
  end.

(** The attempts performed along a schedule, oldest first. *)
Fixpoint attempts (ops : list op) (s : Sys) : list TransportResult :=
  match ops with
  | [] => []
  | o :: ops' =>
      match exec o s with
      | Some s' => request_of o s ++ attempts ops' s'
      | None => []
      end
  end.









(** The reporter's thread has ended with a [ZeroDivisionError]. *)
Definition divided_by_zero (r : Reporter) : bool :=
  match rpc_of r with
  | Rraised ZeroDivisionError => true
  | _ => false
  end.

(** * Properties *)

(** ** Arithmetic of the guards *)

Lemma Qgtb_spec (x y : Q) : Qgtb x y = true <-> (y < x)%Q.
Proof. unfold Qgtb, Qlt. apply Z.ltb_lt. Qed.

Lemma Qgtb_false (x y : Q) : Qgtb x y = false <-> (x <= y)%Q.
Proof. unfold Qgtb, Qle. apply Z.ltb_ge. Qed.

Lemma is_success_spec (sc : Z) : is_success sc = true <-> 200 <= sc < 400.
Proof. unfold is_success. rewrite andb_true_iff, Z.leb_le, Z.ltb_lt. tauto. Qed.


(** ** One loop body of a worker *)

(** Unfolds the body of a worker that stands at line 30. *)
Lemma worker_body_unfold fuel tid resp now g w :
  worker_body (S fuel) tid resp now g w =
    match worker_step tid resp now g w with
    | None => (g, w, false)
    | Some (g', w') =>
        match pc w' with
        | W28 => (g', w', true)
        | _ => worker_body fuel tid resp now g' w'
        end
    end.
Proof. reflexivity. Qed.

Ltac run_body g w Hpc Hlock :=
  destruct w as [l sc0 n]; destruct g as [t s f lk rn st qu];
  simpl in Hpc, Hlock; subst l lk; unfold body_fuel.

(** Executes the next statement of the body. *)
Ltac body_step :=
  rewrite worker_body_unfold; unfold worker_step at 1;
  cbn [pc goto status_code local_count
       total_requests successful_requests failed_requests stats_lock
       running start_time stats_queue
       set_total_requests set_successful_requests set_failed_requests
       set_stats_lock set_stats_queue].


(** The body after a transport failure. *)
Lemma worker_body_exception tid now g w :
  pc w = W30 -> stats_lock g = None ->
  worker_body body_fuel tid RequestException now g w =
    (set_stats_lock None
       (set_failed_requests (failed_requests g + 1)
          (set_total_requests (total_requests g + 1) g)),
     {| pc := W28; status_code := status_code w;
        local_count := local_count w + 1 |},
     true).
Proof.
  intros Hpc Hlock. run_body g w Hpc Hlock. do 6 body_step. reflexivity.
Qed.



(** ** The statistics queue *)




(** No statement of the [except] branch touches the queue, also when other
    threads run in between: each one leaves the queue as it finds it and
    leads to the next line of the branch or back to the loop head. *)
Lemma except_branch_keeps_queue tid resp now g w g' w' :
  in_except (pc w) = true ->
  worker_step tid resp now g w = Some (g', w') ->
  stats_queue g' = stats_queue g /\ (in_except (pc w') = true \/ pc w' = W28).
Proof.
  intros Hin Hstep. destruct w as [l sc n]; simpl in Hin.
  destruct l; try discriminate Hin; unfold worker_step in Hstep; simpl in Hstep.
  - destruct (stats_lock g); [discriminate|]. inversion Hstep; subst. simpl. auto.
  - inversion Hstep; subst. simpl. auto.
  - inversion Hstep; subst. simpl. auto.
  - inversion Hstep; subst. simpl. auto.
  - inversion Hstep; subst. simpl. auto.
Qed.

(** C10. An attempt that ends in a transport failure never enqueues an
    event, detailed mode or not: the body takes the [except] branch, adds one
    to [total_requests] and to [failed_requests], and hands back the queue
    unchanged. *)
Theorem transport_failure_emits_no_event tid now g w :
  pc w = W30 -> stats_lock g = None ->
  exists g' w',
    worker_body body_fuel tid RequestException now g w = (g', w', true) /\
    pc w' = W28 /\
    stats_queue g' = stats_queue g /\
    total_requests g' = total_requests g + 1 /\
    failed_requests g' = failed_requests g + 1 /\
    successful_requests g' = successful_requests g /\
    running g' = running g /\ start_time g' = start_time g.
Proof.
  intros Hpc Hlock. rewrite (worker_body_exception _ _ _ _ Hpc Hlock).
  do 2 eexists. split; [reflexivity|]. simpl. tauto.
Qed.

(** A refused connection with one event already queued: the queue keeps
    that one event. *)
Lemma transport_failure_emits_no_event_witness :
  exists g' w',
    worker_body body_fuel 0 RequestException 1%Q
      (shared0 (Some {| maxsize := 10000; items := [(5%nat, 200, 0%Q)] |}))
      (goto W30 worker_start) = (g', w', true) /\
    pc w' = W28 /\
    stats_queue g' = Some {| maxsize := 10000; items := [(5%nat, 200, 0%Q)] |} /\
    total_requests g' = 0 + 1 /\
    failed_requests g' = 0 + 1 /\
    successful_requests g' = 0 /\
    running g' = true /\ start_time g' = 0%Q.
Proof.
  apply (transport_failure_emits_no_event 0 1%Q
           (shared0 (Some {| maxsize := 10000; items := [(5%nat, 200, 0%Q)] |}))
           (goto W30 worker_start)); reflexivity.
Defined.




(** ** The final report *)

(** With nothing counted, the percentage of line 150 divides by zero. *)
Lemma percentage_of_zero_total (count : Z) :
  percentage count 0 = Raise ZeroDivisionError.
Proof. reflexivity. Qed.

Lemma final_report_raises_at_150 now g m :
  mpc_of m = M150 -> total_requests g = 0 ->
  main_step now g m = Some (mgoto (Mraised ZeroDivisionError) m, []).
Proof.
  intros Hpc Htot. unfold main_step. rewrite Hpc, Htot.
  rewrite percentage_of_zero_total. reflexivity.
Qed.

(** C3. Ctrl+C right after the start, before any attempt is completed: the
    main thread leaves its wait, joins, prints the header and the total of 0,
    and then raises [ZeroDivisionError] at line 150 instead of printing the
    percentages; the report ends there. *)
Theorem final_report_divides_by_zero (threads : nat) (detailed : bool) :
  exists s,
    run (OpSigint :: replicate 7 (OpMain 1%Q))
        (send_load_start threads detailed 0%Q) = Some s /\
    total_requests (shared s) = 0 /\
    mpc_of (main s) = Mraised ZeroDivisionError /\
    stdout s = [StartBanner threads; ShutdownNotice; FinalHeader; FinalTotal 0] /\
    exited s = true.
Proof.
  eexists. split; [vm_compute; reflexivity|]. simpl. repeat split.
Qed.

(** ** The interrupt handler *)

Lemma handle_sigint_twice s :
  same_state (handle_sigint (handle_sigint s)) (handle_sigint s).
Proof. repeat split. Qed.

Lemma handle_sigint_iter s n :
  same_state (Nat.iter (S n) handle_sigint s) (handle_sigint s).
Proof.
  induction n as [|n IH].
  - repeat split.
  - change (Nat.iter (S (S n)) handle_sigint s)
      with (handle_sigint (Nat.iter (S n) handle_sigint s)).
    destruct IH as (Hs & Hw & Hr & Hm).
    unfold same_state. simpl in *. rewrite Hs, Hw, Hr, Hm. repeat split.
Qed.

(** The handler prints its notice every time it is called. *)
Lemma handle_sigint_prints_each_time s n :
  stdout (Nat.iter n handle_sigint s) = stdout s ++ replicate n ShutdownNotice.
Proof.
  induction n as [|n IH]; simpl.
  - now rewrite app_nil_r.
  - rewrite IH, <- app_assoc. f_equal.
    clear IH. induction n as [|n IH]; simpl; [reflexivity|]. now rewrite <- IH.
Qed.

(** C6. Pressing Ctrl+C two or more times leaves the program where one
    Ctrl+C leaves it: [running] is false, the counters, the start time, the
    lock, the queue and every thread are as they were, and the handler, being
    total, cannot fail.  (Only the console differs: it holds one notice per
    interrupt.) *)
Theorem handle_sigint_idempotent (s : Sys) (n : nat) :
  let sn := Nat.iter (S (S n)) handle_sigint s in
  same_state sn (handle_sigint s) /\
  running (shared sn) = false /\
  total_requests (shared sn) = total_requests (shared s) /\
  successful_requests (shared sn) = successful_requests (shared s) /\
  failed_requests (shared sn) = failed_requests (shared s) /\
  start_time (shared sn) = start_time (shared s) /\
  stats_lock (shared sn) = stats_lock (shared s) /\
  stats_queue (shared sn) = stats_queue (shared s) /\
  workers sn = workers s /\ reporter sn = reporter s /\ main sn = main s.
Proof.
  intros sn. pose proof (handle_sigint_iter s (S n)) as H.
  fold sn in H. destruct H as (Hs & Hw & Hr & Hm).
  split; [repeat split; assumption|].
  rewrite Hs, Hw, Hr, Hm. simpl. repeat split.
Qed.

(** ** Invariants of the running program *)

Section SumZ.
Context {A : Type} (f : A -> Z).

Lemma sumZ_insert (l : list A) (i : nat) (x y : A) :
  l !! i = Some x -> sumZ f (<[i := y]> l) = sumZ f l - f x + f y.
Proof.
  revert i. induction l as [|a l IH]; intros [|i] H; simpl in *;
    try discriminate.
  - inversion H; subst. lia.
  - rewrite (IH i H). lia.
Qed.

Lemma sumZ_replicate_zero (n : nat) (x : A) :
  f x = 0 -> sumZ f (replicate n x) = 0.
Proof. intros H. induction n as [|n IH]; simpl; lia. Qed.

Lemma sumZ_all_zero (l : list A) :
  (forall i x, l !! i = Some x -> f x = 0) -> sumZ f l = 0.
Proof.
  induction l as [|a l IH]; intros H; simpl; [reflexivity|].
  rewrite (H 0%nat a eq_refl), IH; [reflexivity|].
  intros i x Hi. apply (H (S i) x Hi).
Qed.

Lemma sumZ_one_nonzero (l : list A) (i : nat) :
  (forall x, 0 <= f x <= 1) ->
  (forall j x, l !! j = Some x -> j <> i -> f x = 0) ->
  0 <= sumZ f l <= 1.
Proof.
  intros Hf. revert i. induction l as [|a l IH]; intros i H; simpl; [lia|].
  destruct i as [|i].
  - rewrite (sumZ_all_zero l); [specialize (Hf a); lia|].
    intros j x Hj. apply (H (S j) x Hj). discriminate.
  - rewrite (H 0%nat a eq_refl); [|discriminate].
    specialize (IH i). apply IH.
    intros j x Hj Hne. apply (H (S j) x Hj). congruence.
Qed.
End SumZ.

(** What one statement of a worker does to the counters and to the two
    balances that the invariant sums up. *)
Lemma worker_step_counts tid resp now g w g' w' :
  worker_step tid resp now g w = Some (g', w') ->
  total_requests g' - successful_requests g' - failed_requests g'
    - uncounted (pc w')
  = total_requests g - successful_requests g - failed_requests g
    - uncounted (pc w) /\
  total_requests g' - (local_count w' + unlogged (pc w'))
  = total_requests g - (local_count w + unlogged (pc w)) /\
  total_requests g <= total_requests g' <= total_requests g + 1 /\
  successful_requests g <= successful_requests g' /\
  failed_requests g <= failed_requests g' /\
  running g' = running g /\ start_time g' = start_time g.
Proof.
  destruct w as [l sc n]. unfold worker_step. simpl.
  destruct l; intros H;
    repeat match type of H with
    | context [match ?x with _ => _ end] => destruct x eqn:?
    end;
    inversion H; subst; simpl; repeat split;
    try reflexivity; try assumption; lia.
Qed.

(** What one statement of a worker does to the lock. *)
Lemma worker_step_lock tid resp now g w g' w' :
  worker_step tid resp now g w = Some (g', w') ->
  (critical (pc w) = true <-> stats_lock g = Some tid) ->
  (critical (pc w') = true <-> stats_lock g' = Some tid) /\
  (forall j, j <> tid -> stats_lock g' = Some j <-> stats_lock g = Some j).
Proof.
  destruct w as [l sc n]. unfold worker_step. simpl.
  destruct l; intros H Hc;
    repeat match type of H with
    | context [match ?x with _ => _ end] => destruct x eqn:?
    end;
    inversion H; subst; simpl in *;
    (split; [|intros j Hj]);
    try tauto;
    try (split; congruence);
    try (destruct Hc as [Hc _]; specialize (Hc eq_refl);
         split; intros; congruence).
Qed.

(** The reporter's expressions are guarded: none of them raises. *)
Lemma Qgtb_nonzero (x : Q) : Qgtb x 0 = true -> Qeq_bool x 0 = false.
Proof.
  intros H. apply Qgtb_spec in H.
  destruct (Qeq_bool x 0) eqn:E; [|reflexivity].
  apply Qeq_bool_iff in E. rewrite E in H. apply Qlt_irrefl in H. contradiction.
Qed.

Lemma inject_Z_nonzero (z : Z) : 0 < z -> Qeq_bool (inject_Z z) 0 = false.
Proof.
  intros H. destruct (Qeq_bool (inject_Z z) 0) eqn:E; [|reflexivity].
  apply Qeq_bool_iff in E. unfold Qeq in E. simpl in E. lia.
Qed.

Lemma compute_rps_ok ct lt ctime ltime :
  compute_rps ct lt ctime ltime =
    Ok (if Qgtb (ctime - ltime) 0 then inject_Z (ct - lt) / (ctime - ltime)
        else 0)%Q.
Proof.
  unfold compute_rps, py_div.
  destruct (Qgtb (ctime - ltime) 0) eqn:E; [|reflexivity].
  now rewrite (Qgtb_nonzero _ E).
Qed.

Lemma compute_total_rps_ok ct ctime st :
  compute_total_rps ct ctime st =
    Ok (if Qgtb (ctime - st) 0 then inject_Z ct / (ctime - st) else 0)%Q.
Proof.
  unfold compute_total_rps, py_div.
  destruct (Qgtb (ctime - st) 0) eqn:E; [|reflexivity].
  now rewrite (Qgtb_nonzero _ E).
Qed.

Lemma compute_success_rate_ok succ ct :
  compute_success_rate succ ct =
    Ok (if 0 <? ct then inject_Z succ / inject_Z ct * 100 else 0)%Q.
Proof.
  unfold compute_success_rate, py_div.
  destruct (0 <? ct) eqn:E; [|reflexivity].
  apply Z.ltb_lt in E. now rewrite (inject_Z_nonzero _ E).
Qed.

(** What one statement of the reporter does to its own variables. *)
Lemma reporter_step_bounds now active g r r' printed :
  reporter_step now active g r = Some (r', printed) ->
  0 <= last_total r <= current_total r ->
  current_total r <= total_requests g ->
  raised r = false ->
  0 <= last_total r' <= current_total r' /\
  current_total r' <= total_requests g /\
  raised r' = false.
Proof.
  unfold reporter_step, raised. intros H H1 H2 H3.
  destruct (rpc_of r) eqn:Hpc; try discriminate;
    try rewrite compute_rps_ok in H;
    try rewrite compute_total_rps_ok in H;
    try rewrite compute_success_rate_ok in H;
    inversion H; subst; simpl; repeat split; try lia.
  destruct (running g); reflexivity.
Qed.

Lemma Inv_start threads detailed now : Inv (send_load_start threads detailed now).
Proof.
  split; simpl.
  - rewrite sumZ_replicate_zero; reflexivity.
  - rewrite sumZ_replicate_zero; reflexivity.
  - intros i w H. apply lookup_replicate in H as [-> _]. simpl.
    split; discriminate.
  - lia.
  - unfold raised. simpl. repeat split; lia.
Qed.

Lemma Inv_exec o s s' : Inv s -> exec o s = Some s' -> Inv s'.
Proof.
  intros [Hc Hl Hk Hn Hr] H. unfold exec in H.
  destruct (exited s); [discriminate|].
  destruct o as [i resp now|now|now|].
  - destruct (workers s !! i) as [w|] eqn:Hw; [|discriminate].
    destruct (worker_step i resp now (shared s) w) as [[g' w']|] eqn:Hs;
      [|discriminate].
    inversion H; subst; clear H.
    pose proof (worker_step_counts _ _ _ _ _ _ _ Hs)
      as (E1 & E2 & E3 & E4 & E5 & _).
    pose proof (worker_step_lock _ _ _ _ _ _ _ Hs (Hk i w Hw)) as [K1 K2].
    split; simpl.
    + rewrite (sumZ_insert _ _ _ _ _ Hw). lia.
    + rewrite (sumZ_insert _ _ _ _ _ Hw). lia.
    + intros j wj Hj. destruct (decide (j = i)) as [->|Hne].
      * rewrite list_lookup_insert_eq in Hj by (eapply lookup_lt_Some; eauto).
        inversion Hj; subst. exact K1.
      * rewrite list_lookup_insert_ne in Hj by congruence.
        rewrite (K2 j Hne). apply (Hk j wj Hj).
    + lia.
    + destruct Hr as (R1 & R2 & R3). repeat split; try lia. exact R3.
  - destruct (reporter_step now (active_count s) (shared s) (reporter s))
      as [[r' printed]|] eqn:Hs; [|discriminate].
    inversion H; subst; clear H.
    destruct Hr as (R1 & R2 & R3).
    pose proof (reporter_step_bounds _ _ _ _ _ _ Hs R1 R2 R3) as (B1 & B2 & B3).
    split; simpl; auto.
  - destruct (main_step now (shared s) (main s)) as [[m' printed]|];
      [|discriminate].
    inversion H; subst; clear H. split; simpl; auto.
  - inversion H; subst; clear H. split; simpl; auto.
Qed.

Lemma Inv_run ops : forall s s', Inv s -> run ops s = Some s' -> Inv s'.
Proof.
  induction ops as [|o ops IH]; intros s s' HI H; simpl in H.
  - inversion H; subst. exact HI.
  - destruct (exec o s) as [s1|] eqn:E; [|discriminate].
    apply (IH s1 s'); [eapply Inv_exec; eauto | exact H].
Qed.

Lemma Inv_reachable s : reachable s -> Inv s.
Proof.
  intros (threads & detailed & now & ops & H).
  eapply Inv_run; [apply Inv_start | exact H].
Qed.

(** ** The counters *)

Lemma exec_monotone o s s' :
  exec o s = Some s' ->
  total_requests (shared s) <= total_requests (shared s') /\
  successful_requests (shared s) <= successful_requests (shared s') /\
  failed_requests (shared s) <= failed_requests (shared s').
Proof.
  unfold exec. destruct (exited s); [discriminate|].
  destruct o as [i resp now|now|now|]; intros H.
  - destruct (workers s !! i) as [w|]; [|discriminate].
    destruct (worker_step i resp now (shared s) w) as [[g' w']|] eqn:Hs;
      [|discriminate].
    inversion H; subst; simpl.
    pose proof (worker_step_counts _ _ _ _ _ _ _ Hs). lia.
  - destruct (reporter_step _ _ _ _) as [[r' printed]|]; [|discriminate].
    inversion H; subst; simpl. lia.
  - destruct (main_step _ _ _) as [[m' printed]|]; [|discriminate].
    inversion H; subst; simpl. lia.
  - inversion H; subst; simpl. lia.
Qed.

(** C8. Once [send_load] has reset them, the three counters never
    decrease: whatever the threads and the operator do, in whatever order,
    each counter afterwards is at least what it was before. *)
Theorem counters_never_decrease (ops : list op) (s s' : Sys) :
  run ops s = Some s' ->
  total_requests (shared s) <= total_requests (shared s') /\
  successful_requests (shared s) <= successful_requests (shared s') /\
  failed_requests (shared s) <= failed_requests (shared s').
Proof.
  revert s. induction ops as [|o ops IH]; intros s H; simpl in H.
  - inversion H; subst. lia.
  - destruct (exec o s) as [s1|] eqn:E; [|discriminate].
    pose proof (exec_monotone _ _ _ E). pose proof (IH _ H). lia.
Qed.

(** [mixed_schedule] is a run of the program. *)
Lemma mixed_schedule_runs :
  run mixed_schedule (send_load_start 2 false 0%Q) = Some mixed_final.
Proof. vm_compute. reflexivity. Qed.

(** The counters along [mixed_schedule]. *)
Lemma counters_never_decrease_witness :
  total_requests (shared (send_load_start 2 false 0%Q))
    <= total_requests (shared mixed_final) /\
  successful_requests (shared (send_load_start 2 false 0%Q))
    <= successful_requests (shared mixed_final) /\
  failed_requests (shared (send_load_start 2 false 0%Q))
    <= failed_requests (shared mixed_final).
Proof.
  exact (counters_never_decrease mixed_schedule
           (send_load_start 2 false 0%Q) mixed_final mixed_schedule_runs).
Defined.

Lemma uncounted_critical l : uncounted l <> 0 -> critical l = true.
Proof. destruct l; simpl; congruence. Qed.


Lemma uncounted_range l : 0 <= uncounted l <= 1.
Proof. destruct l; simpl; lia. Qed.


(** While no worker owns the lock, no worker is between two additions. *)
Lemma lock_free_quiescent s i w :
  Inv s -> stats_lock (shared s) = None ->
  workers s !! i = Some w -> critical (pc w) = false.
Proof.
  intros HI Hfree Hw. destruct (critical (pc w)) eqn:E; [|reflexivity].
  apply (inv_lock s HI i w Hw) in E. congruence.
Qed.

(** At any moment at most one attempt is in [total_requests] and in
    neither of the other two counters. *)
Lemma imbalance_bounds s :
  Inv s ->
  successful_requests (shared s) + failed_requests (shared s)
    <= total_requests (shared s)
    <= successful_requests (shared s) + failed_requests (shared s) + 1.
Proof.
  intros HI. rewrite (inv_counted s HI).
  cut (0 <= sumZ (fun w => uncounted (pc w)) (workers s) <= 1); [lia|].
  destruct (stats_lock (shared s)) as [i|] eqn:Hlock.
  - apply (sumZ_one_nonzero _ _ i); [intros x; apply uncounted_range|].
    intros j x Hj Hne.
    destruct (Z.eq_dec (uncounted (pc x)) 0) as [E|E]; [exact E|].
    apply uncounted_critical in E. apply (inv_lock s HI j x Hj) in E.
    congruence.
  - rewrite sumZ_all_zero; [lia|]. intros j x Hj.
    destruct (Z.eq_dec (uncounted (pc x)) 0) as [E|E]; [exact E|].
    apply uncounted_critical in E.
    rewrite (lock_free_quiescent s j x HI Hlock Hj) in E. discriminate.
Qed.



(** ** How the counters are read *)

(** [torn_schedule] is a run of the program. *)
Lemma torn_schedule_runs :
  run torn_schedule (send_load_start 1 false 0%Q) = Some torn_state.
Proof. vm_compute. reflexivity. Qed.

(** The reporter's read of line 61 is not protected by the lock: after
    [torn_schedule] worker 0 owns the lock, and the total the reporter has
    just read differs from the sum of the other two counters. *)
Lemma reporter_reads_inside_worker_update :
  exists s,
    run torn_schedule (send_load_start 1 false 0%Q) = Some s /\
    stats_lock (shared s) = Some 0%nat /\
    rpc_of (reporter s) = R63 /\
    current_total (reporter s) = 1 /\
    successful_requests (shared s) + failed_requests (shared s) = 0 /\
    current_total (reporter s)
      <> successful_requests (shared s) + failed_requests (shared s).
Proof.
  exists torn_state. split; [exact torn_schedule_runs|].
  simpl. repeat split. discriminate.
Qed.

(** The total of line 61 and the successes of line 70 are read at two
    different moments: with two attempts completed in between, the line
    printed by the reporter shows 1 request and a success rate of 300%. *)
Lemma reporter_can_print_300_percent :
  exists s,
    run (replicate 9 (OpWorker 0 (Response 200) 1%Q)
         ++ replicate 7 (OpReporter 1%Q)
         ++ replicate 18 (OpWorker 0 (Response 200) 1%Q)
         ++ replicate 2 (OpReporter 1%Q))
        (send_load_start 1 false 0%Q) = Some s /\
    stdout s = [StartBanner 1; StatsLine 1 0%Q 1%Q 300%Q 2].
Proof. eexists. split; vm_compute; reflexivity. Qed.

(** Neither the reporter nor the final report looks at the lock. *)
Lemma reporter_step_ignores_lock lk now active g r :
  reporter_step now active (set_stats_lock lk g) r = reporter_step now active g r.
Proof. reflexivity. Qed.

Lemma main_step_ignores_lock lk now g m :
  main_step now (set_stats_lock lk g) m = main_step now g m.
Proof. reflexivity. Qed.

(** C9, amended. The reporter and the final report read the counters
    without the lock, one variable per statement, so what they read can lie
    in the middle of a worker's update.  What holds at every moment of a run:
    [total_requests] is the sum of the other two counters or that sum plus
    one, and it is the sum whenever no worker owns the lock; and the total
    that the reporter holds never exceeds the current [total_requests]. *)
Theorem unlocked_reads_bounded (s : Sys) :
  reachable s ->
  (successful_requests (shared s) + failed_requests (shared s)
     <= total_requests (shared s)
     <= successful_requests (shared s) + failed_requests (shared s) + 1) /\
  (stats_lock (shared s) = None ->
     total_requests (shared s) =
       successful_requests (shared s) + failed_requests (shared s)) /\
  0 <= current_total (reporter s) <= total_requests (shared s) /\
  (forall lk now,
     reporter_step now (active_count s) (set_stats_lock lk (shared s)) (reporter s)
       = reporter_step now (active_count s) (shared s) (reporter s)) /\
  (forall lk now,
     main_step now (set_stats_lock lk (shared s)) (main s)
       = main_step now (shared s) (main s)).
Proof.
  intros Hr. pose proof (Inv_reachable s Hr) as HI.
  split; [apply imbalance_bounds; exact HI|].
  split.
  - intros Hfree. pose proof (imbalance_bounds s HI) as Hb.
    rewrite (inv_counted s HI) in *. rewrite sumZ_all_zero in *; try lia;
      intros j x Hj;
      (destruct (Z.eq_dec (uncounted (pc x)) 0) as [E|E]; [exact E|]);
      apply uncounted_critical in E;
      rewrite (lock_free_quiescent s j x HI Hfree Hj) in E; discriminate.
  - destruct (inv_reporter s HI) as (R1 & R2 & _).
    split; [lia|]. split; intros; reflexivity.
Qed.

(** The bounds at [torn_state], where the lock is taken. *)
Lemma unlocked_reads_bounded_witness :
  (successful_requests (shared torn_state) + failed_requests (shared torn_state)
     <= total_requests (shared torn_state)
     <= successful_requests (shared torn_state)
        + failed_requests (shared torn_state) + 1) /\
  (stats_lock (shared torn_state) = None ->
     total_requests (shared torn_state) =
       successful_requests (shared torn_state)
       + failed_requests (shared torn_state)) /\
  0 <= current_total (reporter torn_state) <= total_requests (shared torn_state) /\
  (forall lk now,
     reporter_step now (active_count torn_state)
       (set_stats_lock lk (shared torn_state)) (reporter torn_state)
       = reporter_step now (active_count torn_state) (shared torn_state)
           (reporter torn_state)) /\
  (forall lk now,
     main_step now (set_stats_lock lk (shared torn_state)) (main torn_state)
       = main_step now (shared torn_state) (main torn_state)).
Proof.
  apply unlocked_reads_bounded.
  exists 1%nat, false, 0%Q, torn_schedule. exact torn_schedule_runs.
Defined.

(** ** One tick of the reporter *)

Lemma Qle_bool_Qgtb (x y : Q) : Qle_bool x y = negb (Qgtb x y).
Proof. unfold Qle_bool, Qgtb. apply Z.leb_antisym. Qed.

Lemma compute_rps_spec ct lt ctime ltime :
  compute_rps ct lt ctime ltime = Ok (TickSpec.instantRate ct lt ctime ltime).
Proof.
  rewrite compute_rps_ok. unfold TickSpec.instantRate.
  rewrite Qle_bool_Qgtb. now destruct (Qgtb (ctime - ltime) 0).
Qed.

Lemma compute_total_rps_spec ct ctime st :
  compute_total_rps ct ctime st = Ok (TickSpec.avgRate ct ctime st).
Proof.
  rewrite compute_total_rps_ok. unfold TickSpec.avgRate.
  rewrite Qle_bool_Qgtb. now destruct (Qgtb (ctime - st) 0).
Qed.

Lemma compute_success_rate_spec succ ct :
  0 <= ct ->
  compute_success_rate succ ct = Ok (TickSpec.successRate succ ct).
Proof.
  intros H. rewrite compute_success_rate_ok. unfold TickSpec.successRate.
  destruct (0 <? ct) eqn:E1, (ct =? 0) eqn:E2; try reflexivity.
  - apply Z.ltb_lt in E1. apply Z.eqb_eq in E2. lia.
  - apply Z.ltb_ge in E1. apply Z.eqb_neq in E2. lia.
Qed.

Lemma reporter_tick_unfold fuel now active g r out :
  reporter_tick (S fuel) now active g r out =
    match reporter_step now active g r with
    | None => (r, out)
    | Some (r', printed) =>
        match rpc_of r' with
        | R58 => (r', out ++ printed)
        | _ => reporter_tick fuel now active g r' (out ++ printed)
        end
    end.
Proof. reflexivity. Qed.

(** C7. A tick that starts at the sleep of line 59 and sees the counters
    of [g] at time [now] prints the total, the instantaneous rate, the average
    rate and the success rate given by the formulas of [TickSpec] (each 0
    when its divisor is not positive, and no division fails), and leaves
    [last_total] and [last_time] at the total and the time just observed. *)
Theorem reporter_tick_reports now active g r out :
  rpc_of r = R59 -> 0 <= total_requests g ->
  let total := total_requests g in
  let rate := TickSpec.instantRate total (last_total r) now (last_time r) in
  let avg := TickSpec.avgRate total now (start_time g) in
  let success := TickSpec.successRate (successful_requests g) total in
  exists r',
    reporter_tick tick_fuel now active g r out =
      (r', out ++ [StatsLine total rate avg success (active - 1)]) /\
    rpc_of r' = R58 /\
    rps r' = rate /\ total_rps r' = avg /\ success_rate r' = success /\
    last_total r' = total /\ last_time r' = now.
Proof.
  intros Hpc Htot total rate avg success.
  destruct r as [l ltot ltime ctime ctot r1 r2 r3]. simpl in Hpc. subst l.
  unfold tick_fuel.
  rewrite reporter_tick_unfold. unfold reporter_step at 1. cbn [rpc_of rgoto].
  rewrite reporter_tick_unfold. unfold reporter_step at 1. cbn [rpc_of rgoto].
  rewrite reporter_tick_unfold. unfold reporter_step at 1. cbn [rpc_of rgoto].
  rewrite reporter_tick_unfold. unfold reporter_step at 1.
  cbn [rpc_of rgoto last_total last_time current_time current_total].
  rewrite compute_rps_spec. cbn [rassign rpc_of].
  rewrite reporter_tick_unfold. unfold reporter_step at 1.
  cbn [rpc_of rgoto last_total last_time current_time current_total].
  rewrite compute_total_rps_spec. cbn [rassign rpc_of].
  rewrite reporter_tick_unfold. unfold reporter_step at 1.
  cbn [rpc_of rgoto last_total last_time current_time current_total].
  rewrite (compute_success_rate_spec _ _ Htot). cbn [rassign rpc_of].
  rewrite reporter_tick_unfold. unfold reporter_step at 1.
  cbn [rpc_of rgoto last_total last_time current_time current_total
       rps total_rps success_rate].
  rewrite reporter_tick_unfold. unfold reporter_step at 1.
  cbn [rpc_of rgoto last_total last_time current_time current_total
       rps total_rps success_rate].
  rewrite !app_nil_r.
  eexists. split; [reflexivity|]. cbn. repeat split.
Qed.

(** The tick of the example. *)
Lemma reporter_tick_reports_witness :
  exists r',
    reporter_tick tick_fuel 3%Q 5 tick_shared tick_reporter [] =
      (r', [] ++ [StatsLine 30 (TickSpec.instantRate 30 10 3%Q 1%Q)
                    (TickSpec.avgRate 30 3%Q 0%Q)
                    (TickSpec.successRate 24 30) (5 - 1)]) /\
    rpc_of r' = R58 /\
    rps r' = TickSpec.instantRate 30 10 3%Q 1%Q /\
    total_rps r' = TickSpec.avgRate 30 3%Q 0%Q /\
    success_rate r' = TickSpec.successRate 24 30 /\
    last_total r' = 30 /\ last_time r' = 3%Q.
Proof.
  apply (reporter_tick_reports 3%Q 5 tick_shared tick_reporter []);
    [reflexivity | simpl; lia].
Defined.

(** The values of that tick: 10 requests a second over the last two
    seconds, 10 a second since the start, 80% of successes. *)
Lemma tick_values :
  (TickSpec.instantRate 30 10 3%Q 1%Q == 10)%Q /\
  (TickSpec.avgRate 30 3%Q 0%Q == 10)%Q /\
  (TickSpec.successRate 24 30 == 80)%Q /\
  TickSpec.instantRate 30 10 1%Q 1%Q = 0%Q /\
  TickSpec.successRate 0 0 = 0%Q.
Proof. repeat split; reflexivity. Qed.

(** ** A worker waiting at a full queue *)

(** Only the [put] of line 43 changes the queue, and only when there is
    room. *)
Lemma worker_step_queue tid resp now g w g' w' :
  worker_step tid resp now g w = Some (g', w') ->
  stats_queue g' = stats_queue g \/
  (pc w = W43 /\ exists q, stats_queue g = Some q /\ full q = false).
Proof.
  destruct w as [l sc n]. unfold worker_step, put. cbn [pc].
  destruct l; intros H;
    repeat match type of H with
    | context [match ?x with _ => _ end] => destruct x eqn:?
    end;
    inversion H; subst; auto.
  right. split; [reflexivity|]. eexists. split; [reflexivity|].
  destruct (full q); [discriminate|reflexivity].
Qed.

Lemma exec_keeps_waiting o s s' i w q :
  exec o s = Some s' ->
  stats_queue (shared s) = Some q -> full q = true ->
  workers s !! i = Some w -> pc w = W43 ->
  stats_queue (shared s') = Some q /\ workers s' !! i = Some w.
Proof.
  unfold exec. destruct (exited s); [discriminate|].
  intros H Hq Hfull Hw Hpc. destruct o as [j resp now|now|now|].
  - destruct (workers s !! j) as [wj|] eqn:Hj; [|discriminate].
    destruct (worker_step j resp now (shared s) wj) as [[g' w']|] eqn:Hs;
      [|discriminate].
    inversion H; subst; clear H. simpl.
    destruct (worker_step_queue _ _ _ _ _ _ _ Hs) as [E|(_ & q' & E1 & E2)];
      [|congruence].
    split; [congruence|].
    destruct (decide (j = i)) as [->|Hne].
    + exfalso. rewrite Hw in Hj. inversion Hj; subst wj.
      unfold worker_step, put in Hs. rewrite Hpc, Hq, Hfull in Hs. discriminate.
    + rewrite list_lookup_insert_ne by exact Hne. exact Hw.
  - destruct (reporter_step _ _ _ _) as [[r' printed]|]; [|discriminate].
    inversion H; subst; simpl. auto.
  - destruct (main_step _ _ _) as [[m' printed]|]; [|discriminate].
    inversion H; subst; simpl. auto.
  - inversion H; subst; simpl. auto.
Qed.

(** Nothing in the program takes events off the queue: a worker that has
    reached line 43 with the queue full is still there, with the same queue,
    after any further schedule. *)
Lemma waits_forever ops : forall s s' i w q,
  run ops s = Some s' ->
  stats_queue (shared s) = Some q -> full q = true ->
  workers s !! i = Some w -> pc w = W43 ->
  stats_queue (shared s') = Some q /\ workers s' !! i = Some w.
Proof.
  induction ops as [|o ops IH]; intros s s' i w q H Hq Hfull Hw Hpc;
    simpl in H.
  - inversion H; subst. auto.
  - destruct (exec o s) as [s1|] eqn:E; [|discriminate].
    destruct (exec_keeps_waiting _ _ _ _ _ _ E Hq Hfull Hw Hpc) as [Hq1 Hw1].
    exact (IH _ _ _ _ _ H Hq1 Hfull Hw1 Hpc).
Qed.

(** A run in detailed mode with one worker and a server that answers 200:
    after 10000 events the queue is full, the next request is counted, and
    its [put] cannot proceed. *)
Lemma detailed_run_fills_queue :
  exists s q,
    run (replicate (Z.to_nat 100009) (OpWorker 0 (Response 200) 0%Q))
        (send_load_start 1 true 0%Q) = Some s /\
    total_requests (shared s) = 10001 /\
    successful_requests (shared s) = 10001 /\
    workers s = [ {| pc := W43; status_code := 200; local_count := 10001 |} ] /\
    stats_queue (shared s) = Some q /\ full q = true /\
    exec (OpWorker 0 (Response 200) 0%Q) s = None.
Proof.
  do 2 eexists. split; [vm_compute; reflexivity|].
  vm_compute. repeat split; reflexivity.
Qed.

(** ** The loop body inside the program *)

(** A completed body is a run of the program in which the worker is
    scheduled alone: what [worker_body] computes from the shared variables
    of [s] is what [run] computes from [s]. *)
Lemma worker_body_is_a_run fuel : forall i resp now s w g' w',
  exited s = false -> workers s !! i = Some w ->
  worker_body fuel i resp now (shared s) w = (g', w', true) ->
  exists n,
    run (replicate n (OpWorker i resp now)) s =
      Some {| shared := g'; workers := <[i := w']> (workers s);
              reporter := reporter s; main := main s; stdout := stdout s |}.
Proof.
  induction fuel as [|fuel IH]; intros i resp now s w g' w' Hex Hw Hb.
  - discriminate Hb.
  - rewrite worker_body_unfold in Hb.
    destruct (worker_step i resp now (shared s) w) as [[g1 w1]|] eqn:Hs;
      [|discriminate].
    set (s1 := {| shared := g1; workers := <[i := w1]> (workers s);
                  reporter := reporter s; main := main s;
                  stdout := stdout s |}).
    assert (Hexec : exec (OpWorker i resp now) s = Some s1).
    { unfold exec. rewrite Hex, Hw, Hs. reflexivity. }
    assert (Hlen : (i < length (workers s))%nat)
      by (eapply lookup_lt_Some; eauto).
    assert (Hnext : worker_body fuel i resp now (shared s1) w1 = (g', w', true)
                    -> exists n,
                       run (replicate n (OpWorker i resp now)) s =
                         Some {| shared := g'; workers := <[i := w']> (workers s);
                                 reporter := reporter s; main := main s;
                                 stdout := stdout s |}).
    { intros Hb1.
      destruct (IH i resp now s1 w1 g' w' Hex
                  (list_lookup_insert_eq _ _ _ Hlen) Hb1) as [n Hn].
      exists (S n). simpl. rewrite Hexec, Hn. simpl.
      now rewrite list_insert_insert_eq. }
    destruct (pc w1) eqn:Hpc1; try (apply Hnext; exact Hb).
    inversion Hb; subst. exists 1%nat. simpl. rewrite Hexec. reflexivity.
Qed.

(** * Further properties of the program *)

(** ** Reasoning about schedules *)

(** The four ways in which an operation is executed. *)
Lemma exec_cases o s s' :
  exec o s = Some s' ->
  exited s = false /\
  ((exists i resp now w g' w',
      o = OpWorker i resp now /\ workers s !! i = Some w /\
      worker_step i resp now (shared s) w = Some (g', w') /\
      s' = {| shared := g'; workers := <[i := w']> (workers s);
              reporter := reporter s; main := main s; stdout := stdout s |}) \/
   (exists now r' printed,
      o = OpReporter now /\
      reporter_step now (active_count s) (shared s) (reporter s)
        = Some (r', printed) /\
      s' = {| shared := shared s; workers := workers s; reporter := r';
              main := main s; stdout := stdout s ++ printed |}) \/
   (exists now m' printed,
      o = OpMain now /\
      main_step now (shared s) (main s) = Some (m', printed) /\
      s' = {| shared := shared s; workers := workers s;
              reporter := reporter s; main := m';
              stdout := stdout s ++ printed |}) \/
   (o = OpSigint /\ s' = handle_sigint s)).
Proof.
  unfold exec. destruct (exited s); [discriminate|]. intros H.
  split; [reflexivity|]. destruct o as [i resp now|now|now|].
  - destruct (workers s !! i) as [w|] eqn:Hw; [|discriminate].
    destruct (worker_step i resp now (shared s) w) as [[g' w']|] eqn:Hs;
      [|discriminate].
    inversion H; subst. left. exists i, resp, now, w, g', w'. auto.
  - destruct (reporter_step _ _ _ _) as [[r' printed]|] eqn:Hs; [|discriminate].
    inversion H; subst. right; left. exists now, r', printed. auto.
  - destruct (main_step _ _ _) as [[m' printed]|] eqn:Hs; [|discriminate].
    inversion H; subst. right; right; left. exists now, m', printed. auto.
  - inversion H; subst. right; right; right. auto.
Qed.

(** A property kept by every operation is kept by every schedule. *)
Lemma run_invariant (P : Sys -> Prop) :
  (forall o s s', P s -> exec o s = Some s' -> P s') ->
  forall ops s s', P s -> run ops s = Some s' -> P s'.
Proof.
  intros Hstep. induction ops as [|o ops IH]; intros s s' HP H; simpl in H.
  - inversion H; subst. exact HP.
  - destruct (exec o s) as [s1|] eqn:E; [|discriminate].
    apply (IH s1 s'); [eapply Hstep; eauto | exact H].
Qed.

Lemma run_app ops1 ops2 s :
  run (ops1 ++ ops2) s =
    match run ops1 s with Some s1 => run ops2 s1 | None => None end.
Proof.
  revert s. induction ops1 as [|o ops1 IH]; intros s; simpl; [reflexivity|].
  destruct (exec o s); [apply IH | reflexivity].
Qed.

(** Case analysis on the statement a worker executes. *)
Ltac worker_cases H :=
  repeat match type of H with
  | context [match ?x with _ => _ end] => destruct x eqn:?
  end;
  inversion H; subst; clear H.

(** ** The reporter's thread *)

(** X1. No division of the statistics reporter fails: in every state of a
    run, whatever the counters hold and whatever the clock returns (also a
    clock that stands still or goes back), the reporter has not ended with a
    [ZeroDivisionError]; each of the three divisions of lines 65, 68 and 70
    is guarded, unlike those of the final report. *)
Theorem reporter_never_divides_by_zero (s : Sys) :
  reachable s -> divided_by_zero (reporter s) = false.
Proof.
  intros Hr. apply Inv_reachable in Hr.
  destruct (inv_reporter s Hr) as (_ & _ & R).
  unfold raised in R. unfold divided_by_zero.
  destruct (rpc_of (reporter s)); try reflexivity. discriminate R.
Qed.

(** A reporter whose clock does not advance between two readings. *)
Lemma reporter_never_divides_by_zero_witness :
  divided_by_zero
    (reporter (default (send_load_start 1 false 0%Q)
                 (run (replicate 9 (OpWorker 0 (Response 200) 0%Q)
                       ++ replicate 9 (OpReporter 0%Q))
                      (send_load_start 1 false 0%Q)))) = false.
Proof.
  apply reporter_never_divides_by_zero.
  exists 1%nat, false, 0%Q,
    (replicate 9 (OpWorker 0 (Response 200) 0%Q)
     ++ replicate 9 (OpReporter 0%Q)).
  vm_compute. reflexivity.
Defined.

(** ** Shutdown *)

Lemma exec_keeps_stopped o s s' :
  exec o s = Some s' ->
  running (shared s) = false -> running (shared s') = false.
Proof.
  intros H Hr. apply exec_cases in H as [_ H].
  destruct H as [(i & resp & now & w & g' & w' & _ & _ & Hs & ->)
                |[(now & r' & pr & _ & _ & ->)
                |[(now & m' & pr & _ & _ & ->)|[_ ->]]]]; simpl; auto.
  pose proof (worker_step_counts _ _ _ _ _ _ _ Hs) as (_ & _ & _ & _ & _ & E & _).
  congruence.
Qed.

(** X2. Shutdown is final: once [running] is false, no statement of any
    thread and no further Ctrl+C sets it back, under any schedule. *)
Theorem shutdown_is_final (ops : list op) (s s' : Sys) :
  run ops s = Some s' ->
  running (shared s) = false -> running (shared s') = false.
Proof.
  intros H Hr. revert ops s s' Hr H.
  apply (run_invariant (fun s => running (shared s) = false)).
  intros o s s' Hs He. eapply exec_keeps_stopped; eauto.
Qed.

(** After a Ctrl+C, a worker and the reporter go on and a second Ctrl+C
    arrives. *)
Lemma shutdown_is_final_witness :
  exists s',
    run [OpWorker 0 (Response 200) 1%Q; OpReporter 1%Q; OpSigint;
         OpWorker 1 RequestException 2%Q]
        (handle_sigint (send_load_start 2 true 0%Q)) = Some s' /\
    running (shared s') = false.
Proof.
  eexists. split; [vm_compute; reflexivity|].
  apply (shutdown_is_final
           [OpWorker 0 (Response 200) 1%Q; OpReporter 1%Q; OpSigint;
            OpWorker 1 RequestException 2%Q]
           (handle_sigint (send_load_start 2 true 0%Q)));
    vm_compute; reflexivity.
Defined.

(** ** The lock *)

(** X3. Mutual exclusion: in every state of a run at most one worker is
    inside a [with stats_lock:] block, and then the lock is taken. *)
Theorem mutual_exclusion (s : Sys) (i j : nat) (wi wj : Worker) :
  reachable s ->
  workers s !! i = Some wi -> workers s !! j = Some wj ->
  critical (pc wi) = true -> critical (pc wj) = true ->
  i = j /\ stats_lock (shared s) = Some i.
Proof.
  intros Hr Hi Hj Ci Cj. apply Inv_reachable in Hr.
  apply (inv_lock s Hr i wi Hi) in Ci. apply (inv_lock s Hr j wj Hj) in Cj.
  split; [congruence | exact Ci].
Qed.

(** Worker 0 of [torn_state] is inside its block. *)
Lemma mutual_exclusion_witness :
  0%nat = 0%nat /\ stats_lock (shared torn_state) = Some 0%nat.
Proof.
  apply (mutual_exclusion torn_state 0 0
           {| pc := W35; status_code := 200; local_count := 0 |}
           {| pc := W35; status_code := 200; local_count := 0 |});
    try reflexivity.
  exists 1%nat, false, 0%Q, torn_schedule. exact torn_schedule_runs.
Defined.

(** X4. Nothing inside a [with stats_lock:] block can wait: a worker that
    is inside the block can always execute its next statement, whatever the
    other threads have done, and after at most five statements of its own
    it has left the block and the lock is free again; the queue and
    [running] are not touched on the way. *)
Theorem critical_section_is_short tid resp now g w :
  critical (pc w) = true ->
  exists g' w',
    worker_leave 5 tid resp now g w = (g', w') /\
    (exists g1 w1, worker_step tid resp now g w = Some (g1, w1)) /\
    critical (pc w') = false /\ stats_lock g' = None /\
    stats_queue g' = stats_queue g /\ running g' = running g.
Proof.
  intros Hc. destruct w as [l sc n], g as [t s f lk rn st qu].
  simpl in Hc.
  destruct l; try discriminate Hc;
    try (destruct (is_success sc) eqn:Hs);
    do 2 eexists;
    (split; [unfold worker_leave, worker_step; cbn; rewrite ?Hs; cbn;
             reflexivity|]);
    (split; [unfold worker_step; cbn; eauto|]);
    cbn; auto.
Qed.

(** A worker that has just added to [total_requests] while another thread
    keeps the queue full. *)
Lemma critical_section_is_short_witness :
  exists g' w',
    worker_leave 5 0 (Response 200) 0%Q
      (set_stats_lock (Some 0%nat) (shared0 (Some full_queue)))
      {| pc := W35; status_code := 200; local_count := 0 |} = (g', w') /\
    (exists g1 w1,
       worker_step 0 (Response 200) 0%Q
         (set_stats_lock (Some 0%nat) (shared0 (Some full_queue)))
         {| pc := W35; status_code := 200; local_count := 0 |} = Some (g1, w1)) /\
    critical (pc w') = false /\ stats_lock g' = None /\
    stats_queue g' = Some full_queue /\ running g' = true.
Proof.
  apply (critical_section_is_short 0 (Response 200) 0%Q
           (set_stats_lock (Some 0%nat) (shared0 (Some full_queue)))
           {| pc := W35; status_code := 200; local_count := 0 |}).
  reflexivity.
Defined.

(** ** Threads scheduled alone *)

Lemma worker_alone_unfold fuel tid resp now g w :
  worker_alone (S fuel) tid resp now g w =
    match worker_step tid resp now g w with
    | None => (g, w)
    | Some (g', w') => worker_alone fuel tid resp now g' w'
    end.
Proof. reflexivity. Qed.

Lemma reporter_alone_unfold fuel now active g r out :
  reporter_alone (S fuel) now active g r out =
    match reporter_step now active g r with
    | None => (r, out)
    | Some (r', printed) => reporter_alone fuel now active g r' (out ++ printed)
    end.
Proof. reflexivity. Qed.

Lemma main_alone_unfold fuel now g m out :
  main_alone (S fuel) now g m out =
    match main_step now g m with
    | None => (m, out)
    | Some (m', printed) => main_alone fuel now g m' (out ++ printed)
    end.
Proof. reflexivity. Qed.

(** Executes the next statement of a worker scheduled alone. *)
Ltac alone_step :=
  rewrite worker_alone_unfold; unfold worker_step at 1;
  cbn [pc goto status_code local_count
       total_requests successful_requests failed_requests stats_lock
       running start_time stats_queue
       set_total_requests set_successful_requests set_failed_requests
       set_stats_lock set_stats_queue].

(** After the shutdown a worker that is given the processor, and the lock
    if it asks for it, is back from its loop after at most ten statements,
    in which it counts at most the attempt it was in. *)
Lemma worker_alone_returns tid resp now g w :
  running g = false ->
  (critical (pc w) = false -> stats_lock g = None) ->
  (pc w = W43 -> stats_queue g <> None) ->
  (forall q, stats_queue g = Some q -> full q = false) ->
  exists g' w',
    worker_alone 10 tid resp now g w = (g', w') /\
    pc w' = Wreturn /\
    total_requests g <= total_requests g' <= total_requests g + 1 /\
    (pc w <> Wreturn -> stats_lock g' = None).
Proof.
  intros Hrun Hlock Hq43 Hfull.
  destruct w as [l sc n], g as [t s f lk rn st qu].
  simpl in Hrun, Hlock, Hq43, Hfull. subst rn.
  assert (Hput : forall q e, qu = Some q ->
            put q e = Some {| maxsize := maxsize q; items := items q ++ [e] |}).
  { intros q e Hq. unfold put. now rewrite (Hfull q Hq). }
  destruct resp as [sc'|];
    try (destruct (is_success sc') eqn:Hs');
    destruct (is_success sc) eqn:Hs;
    destruct qu as [q|];
    try (pose proof (Hput q) as Hput1; specialize (fun e => Hput1 e eq_refl));
    destruct l;
    try (rewrite (Hlock eq_refl));
    try (exfalso; apply Hq43; reflexivity);
    do 2 eexists;
    (split;
     [repeat (alone_step; rewrite ?Hs, ?Hs', ?Hput1;
              cbn [pc goto status_code local_count]); reflexivity|]);
    cbn; repeat split; try lia; try congruence.
Qed.

(** After the shutdown the reporter is back from its loop after at most
    nine statements, having printed at most one more line. *)
Lemma reporter_alone_returns now active g r out :
  running g = false -> raised r = false ->
  exists r' out',
    reporter_alone 9 now active g r out = (r', out') /\
    rpc_of r' = Rreturn /\
    exists printed, out' = out ++ printed /\ (length printed <= 1)%nat.
Proof.
  intros Hrun Hr. destruct r as [l lt ltm ctm ct r1 r2 r3].
  unfold raised in Hr. simpl in Hr.
  destruct l; try discriminate Hr;
    do 2 eexists;
    (split;
     [repeat (rewrite reporter_alone_unfold; unfold reporter_step at 1;
              cbn [rpc_of rgoto last_total last_time current_time current_total
                   rps total_rps success_rate];
              rewrite ?Hrun, ?compute_rps_ok, ?compute_total_rps_ok,
                ?compute_success_rate_ok;
              cbn [rassign rpc_of]; rewrite ?app_nil_r);
      reflexivity|]);
    (split; [reflexivity|]);
    first [ exists []; split; [now rewrite app_nil_r | simpl; lia]
          | eexists; split; [reflexivity | simpl; lia] ].
Qed.

(** What a thread does alone is a run of the program. *)
Lemma worker_alone_is_a_run fuel : forall i resp now s w g' w',
  exited s = false -> workers s !! i = Some w ->
  worker_alone fuel i resp now (shared s) w = (g', w') ->
  exists n, (n <= fuel)%nat /\
    run (replicate n (OpWorker i resp now)) s =
      Some {| shared := g'; workers := <[i := w']> (workers s);
              reporter := reporter s; main := main s; stdout := stdout s |}.
Proof.
  assert (Hstay : forall i s w, workers s !! i = Some w ->
            s = {| shared := shared s; workers := <[i := w]> (workers s);
                   reporter := reporter s; main := main s;
                   stdout := stdout s |}).
  { intros i s w Hw. rewrite (list_insert_id _ _ _ Hw). now destruct s. }
  induction fuel as [|fuel IH]; intros i resp now s w g' w' Hex Hw Ha.
  - simpl in Ha. inversion Ha; subst. exists 0%nat. split; [lia|].
    simpl. f_equal. now apply Hstay.
  - rewrite worker_alone_unfold in Ha.
    destruct (worker_step i resp now (shared s) w) as [[g1 w1]|] eqn:Hs.
    + set (s1 := {| shared := g1; workers := <[i := w1]> (workers s);
                    reporter := reporter s; main := main s;
                    stdout := stdout s |}).
      assert (Hexec : exec (OpWorker i resp now) s = Some s1).
      { unfold exec. rewrite Hex, Hw, Hs. reflexivity. }
      assert (Hlen : (i < length (workers s))%nat)
        by (eapply lookup_lt_Some; eauto).
      destruct (IH i resp now s1 w1 g' w' Hex
                  (list_lookup_insert_eq _ _ _ Hlen) Ha) as (n & Hn & Hr).
      exists (S n). split; [lia|]. simpl. rewrite Hexec, Hr. simpl.
      now rewrite list_insert_insert_eq.
    + inversion Ha; subst. exists 0%nat. split; [lia|].
      simpl. f_equal. now apply Hstay.
Qed.

Lemma reporter_alone_is_a_run fuel : forall now s r' out',
  exited s = false ->
  reporter_alone fuel now (active_count s) (shared s) (reporter s) (stdout s)
    = (r', out') ->
  exists n, (n <= fuel)%nat /\
    run (replicate n (OpReporter now)) s =
      Some {| shared := shared s; workers := workers s; reporter := r';
              main := main s; stdout := out' |}.
Proof.
  induction fuel as [|fuel IH]; intros now s r' out' Hex Ha.
  - simpl in Ha. inversion Ha; subst. exists 0%nat. split; [lia|].
    simpl. now destruct s.
  - rewrite reporter_alone_unfold in Ha.
    destruct (reporter_step now (active_count s) (shared s) (reporter s))
      as [[r1 printed]|] eqn:Hs.
    + set (s1 := {| shared := shared s; workers := workers s; reporter := r1;
                    main := main s; stdout := stdout s ++ printed |}).
      assert (Hexec : exec (OpReporter now) s = Some s1).
      { unfold exec. rewrite Hex, Hs. reflexivity. }
      destruct (IH now s1 r' out' Hex Ha) as (n & Hn & Hr).
      exists (S n). split; [lia|]. simpl. rewrite Hexec, Hr. reflexivity.
    + inversion Ha; subst. exists 0%nat. split; [lia|].
      simpl. now destruct s.
Qed.

(** ** The queue and the console along a run *)

Lemma sumZ_nonneg {A : Type} (f : A -> Z) (l : list A) :
  (forall x, 0 <= f x) -> 0 <= sumZ f l.
Proof.
  intros Hf. induction l as [|a l IH]; simpl; [lia|]. specialize (Hf a). lia.
Qed.

Lemma unqueued_nonneg l : 0 <= unqueued l.
Proof. destruct l; simpl; lia. Qed.

(** What one statement of a worker does to the queue: nothing, unless it
    is the [put] of line 43 in front of a queue with room, which appends the
    worker's event. *)
Lemma worker_step_put tid resp now g w g' w' :
  worker_step tid resp now g w = Some (g', w') ->
  (stats_queue g' = stats_queue g /\
   (pc w' = W43 -> stats_queue g <> None) /\
   queue_length g' + unqueued (pc w') - total_requests g'
     <= queue_length g + unqueued (pc w) - total_requests g) \/
  (pc w = W43 /\ pc w' = W28 /\ total_requests g' = total_requests g /\
   exists q, stats_queue g = Some q /\ full q = false /\
     stats_queue g' =
       Some {| maxsize := maxsize q;
               items := items q ++ [(tid, status_code w, now)] |}).
Proof.
  destruct w as [l sc n]. unfold worker_step, put. cbn [pc status_code].
  destruct l; intros H; worker_cases H;
    try (left; unfold queue_length; cbn;
         repeat split; try congruence;
         repeat match goal with
                | E : stats_queue _ = _ |- _ => rewrite E
                end; lia).
  right. cbn. repeat split. exists q.
  destruct (full q); [discriminate|]. inversion Heqo0; subst.
  repeat split.
Qed.

Lemma main_step_cases now g m m' printed :
  main_step now g m = Some (m', printed) ->
  (mpc_of m' <> M134 -> mpc_of m <> M134 \/ running g = false) /\
  (mpc_of m <> M134 -> mpc_of m' <> M134) /\
  (forall l, l ∈ printed -> is_final l = true /\ mpc_of m' <> M134).
Proof.
  unfold main_step. intros H.
  destruct (mpc_of m) eqn:Hpc; worker_cases H; cbn;
    (split;
     [intros Hne;
      first [left; discriminate | right; reflexivity | right; assumption
            | exfalso; apply Hne; reflexivity]|]);
    (split;
     [intros Hne;
      first [discriminate | exfalso; apply Hne; reflexivity]|]);
    intros l Hl;
    repeat (apply elem_of_cons in Hl as [->|Hl]);
    try (apply elem_of_nil in Hl; contradiction);
    split; try reflexivity; discriminate.
Qed.

Lemma reporter_step_prints now active g r r' printed :
  reporter_step now active g r = Some (r', printed) ->
  forall l, l ∈ printed -> is_final l = false.
Proof.
  unfold reporter_step. intros H.
  destruct (rpc_of r); inversion H; subst; intros l Hl;
    repeat (apply elem_of_cons in Hl as [->|Hl]);
    try (apply elem_of_nil in Hl; contradiction); reflexivity.
Qed.

Lemma Inv2_start threads detailed now :
  Inv2 threads detailed (send_load_start threads detailed now).
Proof.
  split; simpl.
  - apply length_replicate.
  - destruct detailed; [|reflexivity].
    eexists. repeat split; simpl; try lia.
    intros e He. apply elem_of_nil in He. contradiction.
  - intros i w H. apply lookup_replicate in H as [-> _]. discriminate.
  - unfold queue_length. simpl. rewrite sumZ_replicate_zero by reflexivity.
    destruct detailed; simpl; lia.
  - congruence.
  - discriminate.
  - intros l Hl Hf. apply list_elem_of_singleton in Hl. subst. discriminate.
Qed.

Lemma Inv2_exec threads detailed o s s' :
  Inv2 threads detailed s -> exec o s = Some s' -> Inv2 threads detailed s'.
Proof.
  intros [Ht Hd Hp He Hm Hn Hf] H. apply exec_cases in H as [_ H].
  destruct H as [(i & resp & now & w & g' & w' & _ & Hw & Hs & ->)
                |[(now & r' & pr & _ & Hs & ->)
                |[(now & m' & pr & _ & Hs & ->)|[_ ->]]]].
  - pose proof (worker_step_counts _ _ _ _ _ _ _ Hs)
      as (_ & _ & _ & _ & _ & Er & _).
    assert (Hlen : (i < length (workers s))%nat)
      by (eapply lookup_lt_Some; eauto).
    destruct (worker_step_put _ _ _ _ _ _ _ Hs)
      as [(Eq & E43 & Ec)|(P43 & P28 & Et & q & Eq & Efull & Eq')].
    + split; simpl.
      * now rewrite length_insert.
      * rewrite Eq. exact Hd.
      * intros j wj Hj Hpc. rewrite Eq.
        destruct (decide (j = i)) as [->|Hne].
        -- rewrite list_lookup_insert_eq in Hj by exact Hlen.
           inversion Hj; subst. auto.
        -- rewrite list_lookup_insert_ne in Hj by congruence. eauto.
      * rewrite (sumZ_insert _ _ _ _ _ Hw). lia.
      * rewrite Er. exact Hm.
      * rewrite Er. exact Hn.
      * exact Hf.
    + split; simpl.
      * now rewrite length_insert.
      * destruct detailed; [|congruence].
        destruct Hd as (q0 & Hq0 & Hmax & Hlen0 & Hids).
        rewrite Eq in Hq0. inversion Hq0; subst q0.
        eexists. split; [exact Eq'|]. simpl. split; [exact Hmax|].
        unfold full in Efull. rewrite Hmax in Efull. simpl in Efull.
        apply Z.leb_gt in Efull.
        split; [rewrite length_app; simpl; lia|].
        intros e Hin. apply elem_of_app in Hin as [Hin|Hin]; [auto|].
        apply list_elem_of_singleton in Hin. subst e. simpl. lia.
      * intros j wj _ _. rewrite Eq'. discriminate.
      * rewrite (sumZ_insert _ _ _ _ _ Hw). rewrite P43, P28. simpl.
        unfold queue_length in *. rewrite Eq', Eq in *. simpl.
        rewrite length_app. simpl. lia.
      * rewrite Er. exact Hm.
      * rewrite Er. exact Hn.
      * exact Hf.
  - split; simpl; auto.
    + intros Hr. apply elem_of_app. left. auto.
    + intros l Hl Hfin. apply elem_of_app in Hl as [Hl|Hl]; [eauto|].
      rewrite (reporter_step_prints _ _ _ _ _ _ Hs l Hl) in Hfin. discriminate.
  - destruct (main_step_cases _ _ _ _ _ Hs) as (M1 & M2 & M3).
    split; simpl; auto.
    + intros Hne. destruct (M1 Hne); auto.
    + intros Hr. apply elem_of_app. left. auto.
    + intros l Hl Hfin. apply elem_of_app in Hl as [Hl|Hl].
      * apply M2. eauto.
      * apply (M3 l Hl).
  - split; simpl; auto.
    + intros _. apply elem_of_app. right. apply list_elem_of_singleton.
      reflexivity.
    + intros l Hl Hfin. apply elem_of_app in Hl as [Hl|Hl]; [eauto|].
      apply list_elem_of_singleton in Hl. subst. discriminate.
Qed.

Lemma Inv2_run threads detailed now ops s :
  run ops (send_load_start threads detailed now) = Some s ->
  Inv2 threads detailed s.
Proof.
  intros H. revert H.
  apply (run_invariant (Inv2 threads detailed)).
  - intros o s1 s2 HI He. eapply Inv2_exec; eauto.
  - apply Inv2_start.
Qed.

Lemma reachable_Inv2 s :
  reachable s -> exists threads detailed, Inv2 threads detailed s.
Proof.
  intros (threads & detailed & now & ops & H).
  exists threads, detailed. eapply Inv2_run; eauto.
Qed.

(** X5. After the shutdown every worker comes back from its loop, and
    counts at most the attempt it was in: in a state of a run with [running]
    false, a worker that is not kept out by another worker holding the lock,
    nor by a full queue, returns within ten statements of its own; on the way
    [total_requests] grows by at most one and no other worker is touched. *)
Theorem worker_returns_after_shutdown (s : Sys) (i : nat) (w : Worker)
    (resp : TransportResult) (now : Q) :
  reachable s -> exited s = false -> running (shared s) = false ->
  workers s !! i = Some w ->
  (stats_lock (shared s) = None \/ stats_lock (shared s) = Some i) ->
  (forall q, stats_queue (shared s) = Some q -> full q = false) ->
  exists n s' w',
    (n <= 10)%nat /\
    run (replicate n (OpWorker i resp now)) s = Some s' /\
    workers s' !! i = Some w' /\ pc w' = Wreturn /\
    total_requests (shared s) <= total_requests (shared s')
      <= total_requests (shared s) + 1 /\
    (forall j, j <> i -> workers s' !! j = workers s !! j).
Proof.
  intros Hr Hex Hrun Hw Hlock Hfull.
  pose proof (Inv_reachable s Hr) as HI.
  destruct (reachable_Inv2 s Hr) as (threads & detailed & HI2).
  assert (Hfree : critical (pc w) = false -> stats_lock (shared s) = None).
  { intros Hc. destruct Hlock as [E|E]; [exact E|].
    apply (inv_lock s HI i w Hw) in E. congruence. }
  destruct (worker_alone_returns i resp now (shared s) w Hrun Hfree
              (inv_put _ _ s HI2 i w Hw) Hfull)
    as (g' & w' & Ha & Hpc & Htot & _).
  destruct (worker_alone_is_a_run 10 i resp now s w g' w' Hex Hw Ha)
    as (n & Hn & Hrun').
  eexists n, _, w'. split; [exact Hn|]. split; [exact Hrun'|]. simpl.
  split; [apply list_lookup_insert_eq; eapply lookup_lt_Some; eauto|].
  split; [exact Hpc|]. split; [exact Htot|].
  intros j Hj. apply list_lookup_insert_ne. congruence.
Qed.

(** Ctrl+C while worker 0 is inside its [with] block. *)
Lemma worker_returns_after_shutdown_witness :
  exists n s' w',
    (n <= 10)%nat /\
    run (replicate n (OpWorker 0 (Response 200) 1%Q)) (handle_sigint torn_state)
      = Some s' /\
    workers s' !! 0%nat = Some w' /\ pc w' = Wreturn /\
    total_requests (shared (handle_sigint torn_state))
      <= total_requests (shared s')
      <= total_requests (shared (handle_sigint torn_state)) + 1 /\
    (forall j, j <> 0%nat ->
       workers s' !! j = workers (handle_sigint torn_state) !! j).
Proof.
  apply (worker_returns_after_shutdown (handle_sigint torn_state) 0
           {| pc := W35; status_code := 200; local_count := 0 |}
           (Response 200) 1%Q); try reflexivity.
  - exists 1%nat, false, 0%Q, (torn_schedule ++ [OpSigint]).
    vm_compute. reflexivity.
  - right. reflexivity.
  - intros q Hq. discriminate Hq.
Defined.

(** X6. After the shutdown the reporter comes back from its loop: in a
    state of a run with [running] false it returns within nine statements of
    its own, printing at most one more line and changing no shared
    variable. *)
Theorem reporter_returns_after_shutdown (s : Sys) (now : Q) :
  reachable s -> exited s = false -> running (shared s) = false ->
  exists n s' printed,
    (n <= 9)%nat /\
    run (replicate n (OpReporter now)) s = Some s' /\
    rpc_of (reporter s') = Rreturn /\
    shared s' = shared s /\ workers s' = workers s /\
    stdout s' = stdout s ++ printed /\ (length printed <= 1)%nat.
Proof.
  intros Hr Hex Hrun. pose proof (Inv_reachable s Hr) as HI.
  destruct (inv_reporter s HI) as (_ & _ & Hnr).
  destruct (reporter_alone_returns now (active_count s) (shared s) (reporter s)
              (stdout s) Hrun Hnr)
    as (r' & out' & Ha & Hpc & printed & Hout & Hlen).
  destruct (reporter_alone_is_a_run 9 now s r' out' Hex Ha) as (n & Hn & Hrun').
  eexists n, _, printed. split; [exact Hn|]. split; [exact Hrun'|].
  simpl. auto.
Qed.

(** Ctrl+C while the reporter is in the middle of a tick. *)
Lemma reporter_returns_after_shutdown_witness :
  exists n s' printed,
    (n <= 9)%nat /\
    run (replicate n (OpReporter 2%Q)) (handle_sigint torn_state) = Some s' /\
    rpc_of (reporter s') = Rreturn /\
    shared s' = shared (handle_sigint torn_state) /\
    workers s' = workers (handle_sigint torn_state) /\
    stdout s' = stdout (handle_sigint torn_state) ++ printed /\
    (length printed <= 1)%nat.
Proof.
  apply (reporter_returns_after_shutdown (handle_sigint torn_state) 2%Q);
    try reflexivity.
  exists 1%nat, false, 0%Q, (torn_schedule ++ [OpSigint]).
  vm_compute. reflexivity.
Defined.

(** X7. The queue exists exactly in detailed mode, keeps its capacity of
    10000, and never holds more than 10000 events, in every state of a
    run. *)
Theorem queue_within_capacity (threads : nat) (detailed : bool) (now : Q)
    (ops : list op) (s : Sys) :
  run ops (send_load_start threads detailed now) = Some s ->
  match stats_queue (shared s) with
  | Some q =>
      detailed = true /\ maxsize q = 10000 /\
      Z.of_nat (length (items q)) <= 10000
  | None => detailed = false
  end.
Proof.
  intros H. pose proof (inv_detailed _ _ s (Inv2_run _ _ _ _ _ H)) as Hd.
  destruct detailed.
  - destruct Hd as (q & -> & Hmax & Hlen & _). auto.
  - rewrite Hd. reflexivity.
Qed.

(** The queue after one response in detailed mode. *)
Lemma queue_within_capacity_witness :
  exists s,
    run (replicate 10 (OpWorker 0 (Response 404) 0%Q))
        (send_load_start 1 true 0%Q) = Some s /\
    match stats_queue (shared s) with
    | Some q =>
        true = true /\ maxsize q = 10000 /\ Z.of_nat (length (items q)) <= 10000
    | None => true = false
    end.
Proof.
  eexists. split; [vm_compute; reflexivity|].
  apply (queue_within_capacity 1 true 0%Q
           (replicate 10 (OpWorker 0 (Response 404) 0%Q))).
  vm_compute. reflexivity.
Defined.

(** X8. Every event on the queue belongs to a counted request of a worker
    of this run: the queue never holds more events than [total_requests],
    and the thread id of every event is below the number of workers. *)
Theorem events_are_counted_requests (threads : nat) (detailed : bool)
    (now : Q) (ops : list op) (s : Sys) :
  run ops (send_load_start threads detailed now) = Some s ->
  queue_length (shared s) <= total_requests (shared s) /\
  (forall q e, stats_queue (shared s) = Some q -> e ∈ items q ->
               (e.1.1 < threads)%nat).
Proof.
  intros H. pose proof (Inv2_run _ _ _ _ _ H) as HI. split.
  - pose proof (inv_events _ _ s HI).
    pose proof (sumZ_nonneg (fun w => unqueued (pc w)) (workers s)
                  (fun w => unqueued_nonneg (pc w))).
    lia.
  - intros q e Hq He. pose proof (inv_detailed _ _ s HI) as Hd.
    destruct detailed; [|congruence].
    destruct Hd as (q0 & Hq0 & _ & _ & Hids).
    rewrite Hq in Hq0. inversion Hq0; subst. auto.
Qed.

(** The events after one response in detailed mode. *)
Lemma events_are_counted_requests_witness :
  exists s,
    run (replicate 10 (OpWorker 0 (Response 404) 0%Q))
        (send_load_start 1 true 0%Q) = Some s /\
    queue_length (shared s) <= total_requests (shared s) /\
    (forall q e, stats_queue (shared s) = Some q -> e ∈ items q ->
                 (e.1.1 < 1)%nat).
Proof.
  eexists. split; [vm_compute; reflexivity|].
  apply (events_are_counted_requests 1 true 0%Q
           (replicate 10 (OpWorker 0 (Response 404) 0%Q))).
  vm_compute. reflexivity.
Defined.

(** X9. The final report is only printed after Ctrl+C: whenever a line of
    the final report is on the console, [running] is false and the shutdown
    notice is on the console too. *)
Theorem final_report_follows_shutdown (s : Sys) (l : Line) :
  reachable s -> l ∈ stdout s -> is_final l = true ->
  running (shared s) = false /\ ShutdownNotice ∈ stdout s.
Proof.
  intros Hr Hl Hf. destruct (reachable_Inv2 s Hr) as (threads & detailed & HI).
  pose proof (inv_final _ _ s HI l Hl Hf) as Hm.
  pose proof (inv_main _ _ s HI Hm) as Hrun.
  split; [exact Hrun|]. exact (inv_notice _ _ s HI Hrun).
Qed.

(** The console when the header of the final report has been printed. *)
Lemma final_report_follows_shutdown_witness :
  exists s,
    run (OpSigint :: replicate 5 (OpMain 1%Q)) (send_load_start 1 false 0%Q)
      = Some s /\
    running (shared s) = false /\ ShutdownNotice ∈ stdout s.
Proof.
  eexists. split; [vm_compute; reflexivity|].
  apply (final_report_follows_shutdown _ FinalHeader).
  - exists 1%nat, false, 0%Q, (OpSigint :: replicate 5 (OpMain 1%Q)).
    vm_compute. reflexivity.
  - simpl. repeat constructor.
  - reflexivity.
Defined.

(** ** The final report when something was counted *)

Lemma inject_Z_nonzero' (z : Z) : z <> 0 -> Qeq_bool (inject_Z z) 0 = false.
Proof.
  intros H. destruct (Qeq_bool (inject_Z z) 0) eqn:E; [|reflexivity].
  apply Qeq_bool_iff in E. unfold Qeq in E. simpl in E. lia.
Qed.

Lemma percentage_ok (count total : Z) :
  total <> 0 ->
  percentage count total = Ok (inject_Z count / inject_Z total * 100)%Q.
Proof.
  intros H. unfold percentage, py_div. now rewrite (inject_Z_nonzero' _ H).
Qed.

Lemma compute_final_rps_ok (total : Z) (tt : Q) :
  compute_final_rps total tt =
    Ok (if Qgtb tt 0 then inject_Z total / tt else 0)%Q.
Proof.
  unfold compute_final_rps, py_div.
  destruct (Qgtb tt 0) eqn:E; [|reflexivity].
  now rewrite (Qgtb_nonzero _ E).
Qed.

Lemma percentage_range (c t : Z) :
  0 <= c <= t -> t <> 0 ->
  (0 <= inject_Z c / inject_Z t * 100 <= 100)%Q.
Proof.
  intros Hc Ht. assert (Hpos : (0 < inject_Z t)%Q).
  { change 0%Q with (inject_Z 0). rewrite <- Zlt_Qlt. lia. }
  split.
  - apply Qmult_le_0_compat; [|discriminate].
    unfold Qdiv. apply Qmult_le_0_compat.
    + change 0%Q with (inject_Z 0). rewrite <- Zle_Qle. lia.
    + apply Qinv_le_0_compat. now apply Qlt_le_weak.
  - apply Qle_trans with (1 * 100)%Q; [|unfold Qle; simpl; lia].
    apply Qmult_le_compat_r; [|discriminate].
    apply Qle_shift_div_r; [exact Hpos|].
    rewrite Qmult_1_l. rewrite <- Zle_Qle. lia.
Qed.

(** X10. When at least one request was counted, the final report runs to
    its end: from line 144 on, with the counters standing still, the main
    thread prints the header, the three counts with the two percentages
    [count/total*100], the elapsed time and the average rate ([total/time],
    or 0 when no time has passed) and returns; it raises nothing, and a
    percentage of a count between 0 and the total lies between 0 and 100. *)
Theorem final_report_completes (now : Q) (g : Shared) (m : Main)
    (out : list Line) :
  mpc_of m = M144 -> total_requests g <> 0 ->
  let t := total_requests g in
  let ps := (inject_Z (successful_requests g) / inject_Z t * 100)%Q in
  let pf := (inject_Z (failed_requests g) / inject_Z t * 100)%Q in
  let tt := (now - start_time g)%Q in
  let rate := (if Qgtb tt 0 then inject_Z t / tt else 0)%Q in
  exists m',
    main_alone 8 now g m out =
      (m', out ++ [FinalHeader; FinalTotal t;
                   FinalSuccessful (successful_requests g) ps;
                   FinalFailed (failed_requests g) pf;
                   FinalTime tt; FinalRate rate]) /\
    mpc_of m' = Mreturn /\
    (0 <= successful_requests g <= t -> (0 <= ps <= 100)%Q) /\
    (0 <= failed_requests g <= t -> (0 <= pf <= 100)%Q).
Proof.
  intros Hpc Hne t ps pf tt rate. destruct m as [l tm fr].
  simpl in Hpc. subst l.
  do 2 (rewrite main_alone_unfold; unfold main_step at 1;
        cbn [mpc_of mgoto total_time final_rps]).
  rewrite compute_final_rps_ok.
  do 3 (rewrite main_alone_unfold; unfold main_step at 1;
        cbn [mpc_of mgoto total_time final_rps]).
  rewrite (percentage_ok _ _ Hne).
  rewrite main_alone_unfold; unfold main_step at 1;
    cbn [mpc_of mgoto total_time final_rps].
  rewrite (percentage_ok _ _ Hne).
  do 2 (rewrite main_alone_unfold; unfold main_step at 1;
        cbn [mpc_of mgoto total_time final_rps]).
  cbn [main_alone]. rewrite !app_nil_r, <- !app_assoc. cbn [app].
  eexists. split; [reflexivity|]. split; [reflexivity|].
  split; intros Hc; apply percentage_range; assumption.
Qed.

(** Thirty requests, twenty-four of them successful, after three seconds. *)
Lemma final_report_completes_witness :
  exists m',
    main_alone 8 3%Q tick_shared
      {| mpc_of := M144; total_time := 0%Q; final_rps := 0%Q |} [] =
      (m', [] ++ [FinalHeader; FinalTotal 30;
                  FinalSuccessful 24 (inject_Z 24 / inject_Z 30 * 100)%Q;
                  FinalFailed 6 (inject_Z 6 / inject_Z 30 * 100)%Q;
                  FinalTime (3 - 0)%Q;
                  FinalRate (if Qgtb (3 - 0) 0
                             then inject_Z 30 / (3 - 0) else 0)%Q]) /\
    mpc_of m' = Mreturn /\
    (0 <= 24 <= 30 -> (0 <= inject_Z 24 / inject_Z 30 * 100 <= 100)%Q) /\
    (0 <= 6 <= 30 -> (0 <= inject_Z 6 / inject_Z 30 * 100 <= 100)%Q).
Proof.
  apply (final_report_completes 3%Q tick_shared
           {| mpc_of := M144; total_time := 0%Q; final_rps := 0%Q |} []).
  - reflexivity.
  - simpl. lia.
Defined.

(** ** Runs under an assumption on the schedule *)

(** A property kept by every operation of a kind is kept by every schedule
    of operations of that kind. *)
Lemma run_invariant_ops (Q : op -> Prop) (P : Sys -> Prop) :
  (forall o s s', Q o -> P s -> exec o s = Some s' -> P s') ->
  forall ops s s', Forall Q ops -> P s -> run ops s = Some s' -> P s'.
Proof.
  intros Hstep. induction ops as [|o ops IH]; intros s s' HQ HP H; simpl in H.
  - inversion H; subst. exact HP.
  - destruct (exec o s) as [s1|] eqn:E; [|discriminate].
    inversion HQ; subst.
    apply (IH s1 s'); [assumption | eapply Hstep; eauto | exact H].
Qed.

Lemma worker_step_stays tid resp now g w g' w' :
  worker_step tid resp now g w = Some (g', w') ->
  running g = true -> pc w' <> Wreturn.
Proof.
  destruct w as [l sc n]. unfold worker_step. cbn [pc].
  destruct l; intros H Hr; worker_cases H; cbn; congruence.
Qed.

Lemma reporter_step_stays now active g r r' printed :
  reporter_step now active g r = Some (r', printed) ->
  running g = true -> rpc_of r' <> Rreturn.
Proof.
  unfold reporter_step. intros H Hr.
  destruct (rpc_of r); try discriminate;
    try rewrite compute_rps_ok in H;
    try rewrite compute_total_rps_ok in H;
    try rewrite compute_success_rate_ok in H;
    inversion H; subst; cbn; try rewrite Hr; discriminate.
Qed.

Lemma nothing_stopped_exec o s s' :
  o <> OpSigint -> nothing_stopped s -> exec o s = Some s' ->
  nothing_stopped s'.
Proof.
  intros Ho (Hr & Hm & Hw & Hrep) H. apply exec_cases in H as [_ H].
  destruct H as [(i & resp & now & w & g' & w' & _ & Hi & Hs & ->)
                |[(now & r' & pr & _ & Hs & ->)
                |[(now & m' & pr & _ & Hs & ->)|[-> _]]]];
    [| | |contradiction]; unfold nothing_stopped; simpl.
  - pose proof (worker_step_counts _ _ _ _ _ _ _ Hs)
      as (_ & _ & _ & _ & _ & Er & _).
    repeat split; try congruence.
    intros j wj Hj. destruct (decide (j = i)) as [->|Hne].
    + rewrite list_lookup_insert_eq in Hj by (eapply lookup_lt_Some; eauto).
      inversion Hj; subst. eapply worker_step_stays; eauto.
    + rewrite list_lookup_insert_ne in Hj by congruence. eauto.
  - repeat split; auto. eapply reporter_step_stays; eauto.
  - repeat split; auto. unfold main_step in Hs. rewrite Hm, Hr in Hs.
    inversion Hs; subst. reflexivity.
Qed.

Lemma nothing_stopped_start threads detailed now :
  nothing_stopped (send_load_start threads detailed now).
Proof.
  unfold nothing_stopped. simpl. repeat split; try discriminate.
  intros i w Hw. apply lookup_replicate in Hw as [-> _]. discriminate.
Qed.



Lemma worker_step_success tid resp now g w g' w' :
  attempt_succeeded resp ->
  worker_step tid resp now g w = Some (g', w') ->
  on_success_path w = true ->
  on_success_path w' = true /\ failed_requests g' = failed_requests g.
Proof.
  destruct w as [l sc n]. unfold worker_step, on_success_path.
  cbn [pc status_code].
  intros Ha H Hp. destruct l; try discriminate Hp; worker_cases H; cbn;
    try (split; [first [reflexivity | assumption]|reflexivity]);
    try contradiction; try congruence.
  apply is_success_spec in Ha. auto.
Qed.

(** X12. Against a server that answers every request with a status code in
    [200,400), nothing is ever counted as a failure: [failed_requests] stays
    0 under every schedule, and whenever the lock is free every counted
    request is a success. *)
Theorem all_successes_counted (threads : nat) (detailed : bool) (now : Q)
    (ops : list op) (s : Sys) :
  all_succeed ops ->
  run ops (send_load_start threads detailed now) = Some s ->
  failed_requests (shared s) = 0 /\
  (stats_lock (shared s) = None ->
   successful_requests (shared s) = total_requests (shared s)).
Proof.
  intros Hall H.
  assert (HP : failed_requests (shared s) = 0 /\
               forall i w, workers s !! i = Some w -> on_success_path w = true).
  { eapply (run_invariant_ops
             (fun o => match o with
                       | OpWorker _ resp _ => attempt_succeeded resp
                       | _ => True
                       end)
             (fun s => failed_requests (shared s) = 0 /\
                       forall i w, workers s !! i = Some w ->
                                   on_success_path w = true));
      [ | exact Hall | | exact H ].
    - intros o s1 s2 Ho (Hf & Hw) He. apply exec_cases in He as [_ He].
      destruct He as [(i & resp & t & w & g' & w' & -> & Hi & Hs & ->)
                     |[(t & r' & pr & _ & _ & ->)
                     |[(t & m' & pr & _ & _ & ->)|[_ ->]]]]; simpl; auto.
      destruct (worker_step_success _ _ _ _ _ _ _ Ho Hs (Hw i w Hi))
        as [Hp' Hf'].
      split; [congruence|]. intros j wj Hj.
      destruct (decide (j = i)) as [->|Hne].
      + rewrite list_lookup_insert_eq in Hj by (eapply lookup_lt_Some; eauto).
        inversion Hj; subst. exact Hp'.
      + rewrite list_lookup_insert_ne in Hj by congruence. eauto.
    - simpl. split; [reflexivity|]. intros i w Hw.
      apply lookup_replicate in Hw as [-> _]. reflexivity. }
  destruct HP as [Hf _]. split; [exact Hf|]. intros Hfree.
  assert (Hr : reachable s) by (exists threads, detailed, now, ops; exact H).
  pose proof (Inv_reachable s Hr) as HI.
  pose proof (inv_counted s HI) as Hc.
  rewrite sumZ_all_zero in Hc; [lia|].
  intros j x Hj.
  destruct (Z.eq_dec (uncounted (pc x)) 0) as [E|E]; [exact E|].
  apply uncounted_critical in E.
  rewrite (lock_free_quiescent s j x HI Hfree Hj) in E. discriminate.
Qed.

(** One worker, two and a half passes of its loop, every answer a 200. *)
Lemma all_successes_counted_witness :
  exists s,
    run (replicate 23 (OpWorker 0 (Response 200) 0%Q))
        (send_load_start 1 true 0%Q) = Some s /\
    failed_requests (shared s) = 0 /\
    (stats_lock (shared s) = None ->
     successful_requests (shared s) = total_requests (shared s)).
Proof.
  eexists. split; [vm_compute; reflexivity|].
  apply (all_successes_counted 1 true 0%Q
           (replicate 23 (OpWorker 0 (Response 200) 0%Q))).
  - unfold all_succeed. apply Forall_replicate. simpl. lia.
  - vm_compute. reflexivity.
Defined.

Lemma worker_step_refused tid now g w g' w' :
  worker_step tid RequestException now g w = Some (g', w') ->
  on_failure_path w = true ->
  on_failure_path w' = true /\
  successful_requests g' = successful_requests g /\
  stats_queue g' = stats_queue g.
Proof.
  destruct w as [l sc n]. unfold worker_step, on_failure_path. cbn [pc].
  intros H Hp. destruct l; try discriminate Hp; worker_cases H; cbn; auto.
Qed.

(** X13. Against a server that cannot be reached, nothing is ever counted
    as a success and, detailed mode or not, no event is ever queued: under
    every schedule in which all requests end in a transport failure
    [successful_requests] stays 0 and the queue stays empty, and whenever
    the lock is free every counted request is a failure. *)
Theorem all_failures_counted (threads : nat) (detailed : bool) (now : Q)
    (ops : list op) (s : Sys) :
  all_refused ops ->
  run ops (send_load_start threads detailed now) = Some s ->
  successful_requests (shared s) = 0 /\
  queue_length (shared s) = 0 /\
  (stats_lock (shared s) = None ->
   failed_requests (shared s) = total_requests (shared s)).
Proof.
  intros Hall H.
  assert (HP : successful_requests (shared s) = 0 /\
               queue_length (shared s) = 0 /\
               forall i w, workers s !! i = Some w -> on_failure_path w = true).
  { eapply (run_invariant_ops
             (fun o => match o with
                       | OpWorker _ resp _ => resp = RequestException
                       | _ => True
                       end)
             (fun s => successful_requests (shared s) = 0 /\
                       queue_length (shared s) = 0 /\
                       forall i w, workers s !! i = Some w ->
                                   on_failure_path w = true));
      [ | exact Hall | | exact H ].
    - intros o s1 s2 Ho (Hf & Hq & Hw) He. apply exec_cases in He as [_ He].
      destruct He as [(i & resp & t & w & g' & w' & -> & Hi & Hs & ->)
                     |[(t & r' & pr & _ & _ & ->)
                     |[(t & m' & pr & _ & _ & ->)|[_ ->]]]]; simpl; auto.
      subst resp.
      destruct (worker_step_refused _ _ _ _ _ _ Hs (Hw i w Hi))
        as (Hp' & Hf' & Hq').
      split; [congruence|].
      split; [unfold queue_length in *; rewrite Hq'; exact Hq|].
      intros j wj Hj. destruct (decide (j = i)) as [->|Hne].
      + rewrite list_lookup_insert_eq in Hj by (eapply lookup_lt_Some; eauto).
        inversion Hj; subst. exact Hp'.
      + rewrite list_lookup_insert_ne in Hj by congruence. eauto.
    - simpl. split; [reflexivity|].
      split; [unfold queue_length; simpl; now destruct detailed|].
      intros i w Hw. apply lookup_replicate in Hw as [-> _]. reflexivity. }
  destruct HP as (Hs & Hq & _). split; [exact Hs|]. split; [exact Hq|].
  intros Hfree.
  assert (Hr : reachable s) by (exists threads, detailed, now, ops; exact H).
  pose proof (Inv_reachable s Hr) as HI.
  pose proof (inv_counted s HI) as Hc.
  rewrite sumZ_all_zero in Hc; [lia|].
  intros j x Hj.
  destruct (Z.eq_dec (uncounted (pc x)) 0) as [E|E]; [exact E|].
  apply uncounted_critical in E.
  rewrite (lock_free_quiescent s j x HI Hfree Hj) in E. discriminate.
Qed.

(** One worker in detailed mode, two passes of its loop, every connection
    refused. *)
Lemma all_failures_counted_witness :
  exists s,
    run (replicate 14 (OpWorker 0 RequestException 0%Q))
        (send_load_start 1 true 0%Q) = Some s /\
    successful_requests (shared s) = 0 /\
    queue_length (shared s) = 0 /\
    (stats_lock (shared s) = None ->
     failed_requests (shared s) = total_requests (shared s)).
Proof.
  eexists. split; [vm_compute; reflexivity|].
  apply (all_failures_counted 1 true 0%Q
           (replicate 14 (OpWorker 0 RequestException 0%Q))).
  - unfold all_refused. apply Forall_replicate. reflexivity.
  - vm_compute. reflexivity.
Defined.

(** ** The queue is never read *)

(** X14. Nothing takes events off the queue or reorders them: under every
    schedule the queue keeps its capacity, and the events it held before are
    still there, in the same order, at its front. *)
Theorem queue_only_grows (ops : list op) (s s' : Sys) (q : Queue) :
  run ops s = Some s' -> stats_queue (shared s) = Some q ->
  exists q',
    stats_queue (shared s') = Some q' /\ maxsize q' = maxsize q /\
    items q `prefix_of` items q'.
Proof.
  intros H Hq.
  eapply (run_invariant
            (fun s1 => exists q', stats_queue (shared s1) = Some q' /\
                                  maxsize q' = maxsize q /\
                                  items q `prefix_of` items q'));
    [ | | exact H ].
  - intros o s1 s2 (q1 & Hq1 & Hm & Hp) He. apply exec_cases in He as [_ He].
    destruct He as [(i & resp & t & w & g' & w' & _ & _ & Hs & ->)
                   |[(t & r' & pr & _ & _ & ->)
                   |[(t & m' & pr & _ & _ & ->)|[_ ->]]]]; simpl; eauto.
    destruct (worker_step_put _ _ _ _ _ _ _ Hs)
      as [(Eq & _ & _)|(_ & _ & _ & q2 & Eq & _ & Eq')].
    + rewrite Eq. eauto.
    + rewrite Hq1 in Eq. inversion Eq; subst q2.
      eexists. split; [exact Eq'|]. simpl. split; [exact Hm|].
      now apply prefix_app_r.
  - exists q. split; [exact Hq|]. split; [reflexivity|]. reflexivity.
Qed.

(** A second response after a first one, with a Ctrl+C in between. *)
Lemma queue_only_grows_witness :
  exists q',
    stats_queue
      (shared
         (default two_workers_state
            (run (OpSigint :: replicate 9 (OpWorker 1 (Response 200) 2%Q))
                 two_workers_state))) = Some q' /\
    maxsize q' = 10000 /\ [(0%nat, 404, 1%Q)] `prefix_of` items q'.
Proof.
  apply (queue_only_grows
           (OpSigint :: replicate 9 (OpWorker 1 (Response 200) 2%Q))
           two_workers_state _
           {| maxsize := 10000; items := [(0%nat, 404, 1%Q)] |});
    vm_compute; reflexivity.
Defined.

(** X15. A worker that has reached the [put] of line 43 with the queue
    full never gets past it: after any schedule whatever, Ctrl+C included,
    it is at line 43 with the same full queue in front of it, so it never
    sees that [running] has become false and never returns. *)
Theorem full_queue_blocks_forever (ops : list op) (s s' : Sys) (i : nat)
    (w : Worker) (q : Queue) :
  run ops s = Some s' ->
  stats_queue (shared s) = Some q -> full q = true ->
  workers s !! i = Some w -> pc w = W43 ->
  stats_queue (shared s') = Some q /\ workers s' !! i = Some w /\
  forall resp now, exec (OpWorker i resp now) s' = None.
Proof.
  intros H Hq Hfull Hw Hpc.
  destruct (waits_forever ops s s' i w q H Hq Hfull Hw Hpc) as [Hq' Hw'].
  split; [exact Hq'|]. split; [exact Hw'|].
  intros resp now. unfold exec. destruct (exited s'); [reflexivity|].
  rewrite Hw'. unfold worker_step, put. now rewrite Hpc, Hq', Hfull.
Qed.

(** The worker of [waiting_state], through a Ctrl+C, a statement of the
    reporter and one of the main thread. *)
Lemma full_queue_blocks_forever_witness :
  let s' := default waiting_state
              (run [OpSigint; OpReporter 1%Q; OpMain 1%Q] waiting_state) in
  stats_queue (shared s') = Some full_queue /\
  workers s' !! 0%nat =
    Some {| pc := W43; status_code := 200; local_count := 10001 |} /\
  forall resp now, exec (OpWorker 0 resp now) s' = None.
Proof.
  apply (full_queue_blocks_forever [OpSigint; OpReporter 1%Q; OpMain 1%Q]
           waiting_state _ 0
           {| pc := W43; status_code := 200; local_count := 10001 |}
           full_queue); vm_compute; reflexivity.
Defined.

(** ** No deadlock on the lock *)

Lemma worker_step_holder tid resp now g w g' w' :
  worker_step tid resp now g w = Some (g', w') ->
  forall k, stats_lock g' = Some k -> k = tid \/ stats_lock g = Some k.
Proof.
  destruct w as [l sc n]. unfold worker_step. cbn [pc].
  destruct l; intros H; worker_cases H; cbn; intros k Hk;
    first [right; assumption | left; congruence | discriminate].
Qed.

Lemma lock_has_holder_reachable s : reachable s -> lock_has_holder s.
Proof.
  intros (threads & detailed & now & ops & H).
  eapply (run_invariant lock_has_holder); [ | | exact H ].
  - intros o s1 s2 HP He. apply exec_cases in He as [_ He].
    destruct He as [(i & resp & t & w & g' & w' & _ & Hi & Hs & ->)
                   |[(t & r' & pr & _ & _ & ->)
                   |[(t & m' & pr & _ & _ & ->)|[_ ->]]]];
      unfold lock_has_holder in *; simpl; auto.
    intros k Hk. apply lookup_lt_is_Some. rewrite length_insert.
    destruct (worker_step_holder _ _ _ _ _ _ _ Hs k Hk) as [->|Hold].
    + eapply lookup_lt_Some; eauto.
    + apply lookup_lt_is_Some. auto.
  - intros k Hk. discriminate Hk.
Qed.

(** The next statement of a worker can be executed unless it asks for a
    lock that is taken or for room on a queue that has none. *)
Lemma worker_can_step tid resp now g w :
  pc w <> Wreturn ->
  (critical (pc w) = false -> stats_lock g = None) ->
  (pc w = W43 -> exists q, stats_queue g = Some q /\ full q = false) ->
  exists g' w', worker_step tid resp now g w = Some (g', w').
Proof.
  destruct w as [l sc n]. unfold worker_step, put. cbn [pc].
  intros Hret Hlock Hq.
  destruct l; try (rewrite (Hlock eq_refl)); eauto;
    try (destruct resp; eauto; fail).
  - destruct (Hq eq_refl) as (q & -> & ->). eauto.
  - contradiction.
Qed.

(** X16. The workers cannot deadlock on the lock: in every state of a run
    in which the queue, if there is one, has room, as long as some worker has
    not returned there is a worker whose next statement can be executed,
    whatever the transport answers. *)
Theorem workers_never_deadlock (s : Sys) (j : nat) (w : Worker)
    (resp : TransportResult) (now : Q) :
  reachable s -> exited s = false ->
  (forall q, stats_queue (shared s) = Some q -> full q = false) ->
  workers s !! j = Some w -> pc w <> Wreturn ->
  exists i s', exec (OpWorker i resp now) s = Some s'.
Proof.
  intros Hr Hex Hroom Hj Hret.
  pose proof (Inv_reachable s Hr) as HI.
  destruct (reachable_Inv2 s Hr) as (threads & detailed & HI2).
  assert (Hstep : forall i wi, workers s !! i = Some wi -> pc wi <> Wreturn ->
            (critical (pc wi) = false -> stats_lock (shared s) = None) ->
            exists i s', exec (OpWorker i resp now) s = Some s').
  { intros i wi Hi Hnr Hfree.
    destruct (worker_can_step i resp now (shared s) wi Hnr Hfree)
      as (g' & w' & Hs).
    - intros H43. pose proof (inv_put _ _ s HI2 i wi Hi H43) as Hq.
      destruct (stats_queue (shared s)) as [q|] eqn:E; [|contradiction].
      exists q. split; [reflexivity|]. now apply Hroom.
    - exists i. eexists. unfold exec. rewrite Hex, Hi, Hs. reflexivity. }
  destruct (stats_lock (shared s)) as [i|] eqn:Hlock.
  - destruct (lock_has_holder_reachable s Hr i Hlock) as [wi Hi].
    assert (Hc : critical (pc wi) = true)
      by (apply (inv_lock s HI i wi Hi); exact Hlock).
    apply (Hstep i wi Hi).
    + intros E. rewrite E in Hc. discriminate.
    + intros E. congruence.
  - apply (Hstep j w Hj Hret). auto.
Qed.

(** In [torn_state] worker 0 owns the lock and can go on. *)
Lemma workers_never_deadlock_witness :
  exists i s', exec (OpWorker i RequestException 5%Q) torn_state = Some s'.
Proof.
  apply (workers_never_deadlock torn_state 0
           {| pc := W35; status_code := 200; local_count := 0 |}
           RequestException 5%Q); try reflexivity.
  - exists 1%nat, false, 0%Q, torn_schedule. exact torn_schedule_runs.
  - intros q Hq. discriminate Hq.
  - discriminate.
Defined.

(** ** The lines of the reporter *)

Lemma nondecreasing_snoc (l : list Z) (lo n : Z) :
  nondecreasing lo l -> (forall x, x ∈ l -> x <= n) -> lo <= n ->
  nondecreasing lo (l ++ [n]).
Proof.
  revert lo. induction l as [|a l IH]; intros lo Hl Hb Hlo; simpl.
  - auto.
  - destruct Hl as [Ha Hl]. split; [exact Ha|].
    apply IH; [exact Hl | | apply Hb; left].
    intros x Hx. apply Hb. now right.
Qed.

Lemma ratio_nonneg (z : Z) (e : Q) :
  0 <= z -> (0 <= (if Qgtb e 0 then inject_Z z / e else 0))%Q.
Proof.
  intros Hz. destruct (Qgtb e 0) eqn:E; [|apply Qle_refl].
  apply Qgtb_spec in E. unfold Qdiv. apply Qmult_le_0_compat.
  - change 0%Q with (inject_Z 0). now rewrite <- Zle_Qle.
  - apply Qinv_le_0_compat. now apply Qlt_le_weak.
Qed.

Lemma share_nonneg (z t : Z) :
  0 <= z -> (0 <= (if 0 <? t then inject_Z z / inject_Z t * 100 else 0))%Q.
Proof.
  intros Hz. destruct (0 <? t) eqn:E; [|apply Qle_refl].
  apply Z.ltb_lt in E. apply Qmult_le_0_compat; [|discriminate].
  unfold Qdiv. apply Qmult_le_0_compat.
  - change 0%Q with (inject_Z 0). now rewrite <- Zle_Qle.
  - apply Qinv_le_0_compat. change 0%Q with (inject_Z 0).
    rewrite <- Zle_Qle. lia.
Qed.

(** What one statement of the reporter prints and keeps. *)
Lemma reporter_step_lines now active g r r' printed :
  reporter_step now active g r = Some (r', printed) ->
  0 <= last_total r <= current_total r ->
  current_total r <= total_requests g ->
  0 <= successful_requests g ->
  (0 <= rps r)%Q /\ (0 <= total_rps r)%Q /\ (0 <= success_rate r)%Q ->
  ((0 <= rps r')%Q /\ (0 <= total_rps r')%Q /\ (0 <= success_rate r')%Q) /\
  current_total r <= current_total r' /\
  (printed = [] \/
   printed = [StatsLine (current_total r) (rps r) (total_rps r)
                (success_rate r) (active - 1)] /\
   current_total r' = current_total r).
Proof.
  unfold reporter_step. intros H Hl Ht Hs (N1 & N2 & N3).
  destruct (rpc_of r) eqn:Hpc; try discriminate;
    try rewrite compute_rps_ok in H;
    try rewrite compute_total_rps_ok in H;
    try rewrite compute_success_rate_ok in H;
    inversion H; subst; cbn;
    (split; [repeat split; try assumption|]);
    try (apply ratio_nonneg; lia);
    try (apply share_nonneg; lia);
    (split; [lia|]); auto.
Qed.

Lemma main_step_shows_nothing now g m m' printed :
  main_step now g m = Some (m', printed) ->
  omap shown printed = [] /\ Forall nonnegative_line printed.
Proof.
  unfold main_step. intros H.
  destruct (mpc_of m); worker_cases H; cbn;
    (split; [reflexivity | repeat constructor]).
Qed.

Lemma Inv3_start threads detailed now :
  Inv3 (send_load_start threads detailed now).
Proof.
  split; simpl; auto.
  - intros n Hn. apply elem_of_nil in Hn. contradiction.
  - repeat constructor.
  - repeat split; apply Qle_refl.
Qed.

Lemma Inv3_exec o s s' : Inv s -> Inv3 s -> exec o s = Some s' -> Inv3 s'.
Proof.
  intros HI [Hs Hb Hn Hr] H. apply exec_cases in H as [_ H].
  destruct H as [(i & resp & now & w & g' & w' & _ & _ & _ & ->)
                |[(now & r' & pr & _ & Hstep & ->)
                |[(now & m' & pr & _ & Hstep & ->)|[_ ->]]]].
  - split; simpl; auto.
  - destruct (inv_reporter s HI) as (R1 & R2 & _).
    destruct (inv_nonneg s HI) as (S1 & _).
    destruct (reporter_step_lines _ _ _ _ _ _ Hstep R1 R2 S1 Hr)
      as (Hr' & Hmono & [->|[-> Hsame]]).
    + split; simpl; rewrite ?app_nil_r; auto.
      intros n Hin. specialize (Hb n Hin). lia.
    + split; simpl; auto.
      * rewrite omap_app. simpl. apply nondecreasing_snoc; auto. lia.
      * intros n Hin. rewrite omap_app in Hin. simpl in Hin.
        apply elem_of_app in Hin as [Hin|Hin].
        -- specialize (Hb n Hin). lia.
        -- apply list_elem_of_singleton in Hin. lia.
      * apply Forall_app. split; [exact Hn|].
        constructor; [|constructor]. simpl. split; [lia|exact Hr].
  - destruct (main_step_shows_nothing _ _ _ _ _ Hstep) as [E F].
    split; simpl; auto.
    + rewrite omap_app, E, app_nil_r. exact Hs.
    + intros n Hin. rewrite omap_app, E, app_nil_r in Hin. auto.
    + apply Forall_app. auto.
  - split; simpl; auto.
    + rewrite omap_app. simpl. rewrite app_nil_r. exact Hs.
    + intros n Hin. rewrite omap_app in Hin. simpl in Hin.
      rewrite app_nil_r in Hin. auto.
    + apply Forall_app. split; [exact Hn|]. repeat constructor.
Qed.

Lemma Inv3_reachable s : reachable s -> Inv3 s.
Proof.
  intros (threads & detailed & now & ops & H).
  cut (Inv s /\ Inv3 s); [tauto|].
  eapply (run_invariant (fun s => Inv s /\ Inv3 s)); [ | | exact H ].
  - intros o s1 s2 [H1 H3] He. split.
    + eapply Inv_exec; eauto.
    + eapply Inv3_exec; eauto.
  - split; [apply Inv_start | apply Inv3_start].
Qed.

(** X17. The request count shown by the reporter never goes back: on the
    console of every run the counts of the reporter's lines, in the order in
    which they were printed, never decrease, and none of them exceeds the
    number of requests counted so far. *)
Theorem shown_totals_never_go_back (s : Sys) :
  reachable s ->
  nondecreasing 0 (omap shown (stdout s)) /\
  (forall n, n ∈ omap shown (stdout s) -> 0 <= n <= total_requests (shared s)).
Proof.
  intros Hr. pose proof (Inv3_reachable s Hr) as H3.
  pose proof (Inv_reachable s Hr) as HI.
  split; [exact (inv_shown_sorted s H3)|].
  intros n Hn. pose proof (inv_shown_bound s H3 n Hn).
  destruct (inv_reporter s HI) as (_ & R2 & _).
  split; [|lia].
  pose proof (inv_lines_nonneg s H3) as Hall.
  rewrite Forall_forall in Hall.
  apply list_elem_of_omap in Hn as (l & Hl & Hsh).
  specialize (Hall l Hl). destruct l; try discriminate Hsh.
  simpl in Hsh. inversion Hsh; subst. simpl in Hall. tauto.
Qed.

(** The console after [busy_schedule]. *)
Lemma shown_totals_never_go_back_witness :
  let s := default (send_load_start 1 false 0%Q)
             (run busy_schedule (send_load_start 1 false 0%Q)) in
  nondecreasing 0 (omap shown (stdout s)) /\
  (forall n, n ∈ omap shown (stdout s) -> 0 <= n <= total_requests (shared s)).
Proof.
  apply shown_totals_never_go_back.
  exists 1%nat, false, 0%Q, busy_schedule. vm_compute. reflexivity.
Defined.

(** X18. The reporter never prints a negative number: on the console of
    every run each of its lines shows a request count, an instantaneous rate,
    an average rate and a success rate that are all at least 0, whatever the
    clock returns. *)
Theorem stats_lines_nonnegative (s : Sys) (l : Line) :
  reachable s -> l ∈ stdout s -> nonnegative_line l.
Proof.
  intros Hr Hl. pose proof (inv_lines_nonneg s (Inv3_reachable s Hr)) as Hall.
  rewrite Forall_forall in Hall. auto.
Qed.

(** The line printed in [busy_schedule]. *)
Lemma stats_lines_nonnegative_witness :
  nonnegative_line (StatsLine 1 0%Q 1%Q 300%Q 2).
Proof.
  apply (stats_lines_nonnegative
           (default (send_load_start 1 false 0%Q)
              (run busy_schedule (send_load_start 1 false 0%Q)))).
  - exists 1%nat, false, 0%Q, busy_schedule. vm_compute. reflexivity.
  - vm_compute. repeat constructor.
Defined.

(** ** How send_load ends *)

Lemma total_nonneg s : Inv s -> 0 <= total_requests (shared s).
Proof.
  intros HI. pose proof (imbalance_bounds s HI).
  destruct (inv_nonneg s HI). lia.
Qed.

Lemma main_step_outcome now g m m' printed :
  main_step now g m = Some (m', printed) ->
  0 <= total_requests g ->
  (past_150 (mpc_of m') = true ->
   past_150 (mpc_of m) = true \/ 0 < total_requests g) /\
  (forall e, mpc_of m' = Mraised e ->
             e = ZeroDivisionError /\ total_requests g = 0).
Proof.
  unfold main_step. intros H Hnn.
  destruct (mpc_of m) eqn:Hpc; try discriminate;
    try rewrite compute_final_rps_ok in H;
    try (destruct (Z.eq_dec (total_requests g) 0) as [Hz|Hz];
         [rewrite Hz in H; rewrite percentage_of_zero_total in H
         |rewrite (percentage_ok _ _ Hz) in H]);
    try (destruct (running g));
    inversion H; subst; cbn;
    (split; [intros Hp; try discriminate Hp; auto; right; lia|]);
    intros e He; try discriminate He;
    destruct e; (split; [reflexivity | assumption]).
Qed.

Lemma report_outcome_reachable s : reachable s -> report_outcome s.
Proof.
  intros (threads & detailed & now & ops & H).
  cut (Inv s /\ report_outcome s); [tauto|].
  eapply (run_invariant (fun s => Inv s /\ report_outcome s)); [ | | exact H ].
  - intros o s1 s2 [HI [Hp He]] Hexec.
    split; [eapply Inv_exec; eauto|].
    pose proof (total_nonneg s1 HI) as Hnn.
    pose proof (exec_monotone _ _ _ Hexec) as (Hmono & _).
    apply exec_cases in Hexec as [Hex Hexec].
    assert (Hnr : forall e, mpc_of (main s1) <> Mraised e).
    { intros e E. unfold exited in Hex. rewrite E in Hex. discriminate. }
    destruct Hexec as [(i & resp & t & w & g' & w' & _ & _ & _ & ->)
                      |[(t & r' & pr & _ & _ & ->)
                      |[(t & m' & pr & _ & Hs & ->)|[_ ->]]]];
      unfold report_outcome; simpl in *.
    + split; [intros Hq; specialize (Hp Hq); lia|].
      intros e E. exfalso. exact (Hnr e E).
    + split; [exact Hp|exact He].
    + destruct (main_step_outcome _ _ _ _ _ Hs Hnn) as [O1 O2].
      split; [|exact O2]. intros Hq. destruct (O1 Hq); auto.
    + split; [exact Hp|exact He].
  - split; [apply Inv_start|]. unfold report_outcome. simpl.
    split; [discriminate|]. intros e E. discriminate E.
Qed.

(** X19. [send_load] ends in one of two ways.  If it returns, the whole
    report printed, at least one request has been counted; if it ends with
    an exception, the exception is [ZeroDivisionError] and no request has
    been counted. *)
Theorem send_load_outcome (s : Sys) :
  reachable s ->
  (mpc_of (main s) = Mreturn -> 0 < total_requests (shared s)) /\
  (forall e, mpc_of (main s) = Mraised e ->
             e = ZeroDivisionError /\ total_requests (shared s) = 0).
Proof.
  intros Hr. destruct (report_outcome_reachable s Hr) as [Hp He].
  split; [|exact He]. intros E. apply Hp. now rewrite E.
Qed.

(** The end of the run interrupted before any request was counted. *)
Lemma send_load_outcome_witness :
  let s := default (send_load_start 3 true 0%Q)
             (run (OpSigint :: replicate 7 (OpMain 1%Q))
                  (send_load_start 3 true 0%Q)) in
  (mpc_of (main s) = Mreturn -> 0 < total_requests (shared s)) /\
  (forall e, mpc_of (main s) = Mraised e ->
             e = ZeroDivisionError /\ total_requests (shared s) = 0).
Proof.
  apply send_load_outcome.
  exists 3%nat, true, 0%Q, (OpSigint :: replicate 7 (OpMain 1%Q)).
  vm_compute. reflexivity.
Defined.

(** X20. With no worker threads ([threads = 0]) no request is ever
    counted, the lock is never taken, and [send_load] never returns
    normally: the only end it can reach is the exception of the final
    report. *)
Theorem no_workers_no_report (detailed : bool) (now : Q) (ops : list op)
    (s : Sys) :
  run ops (send_load_start 0 detailed now) = Some s ->
  total_requests (shared s) = 0 /\ stats_lock (shared s) = None /\
  mpc_of (main s) <> Mreturn.
Proof.
  intros H.
  assert (Hr : reachable s) by (exists 0%nat, detailed, now, ops; exact H).
  pose proof (Inv_reachable s Hr) as HI.
  pose proof (inv_threads _ _ s (Inv2_run _ _ _ _ _ H)) as Hlen.
  destruct (workers s) as [|w ws] eqn:Hw; [|discriminate Hlen].
  assert (Ht : total_requests (shared s) = 0).
  { rewrite (inv_logged s HI), Hw. reflexivity. }
  split; [exact Ht|]. split.
  - destruct (stats_lock (shared s)) as [i|] eqn:Hlock; [|reflexivity].
    destruct (lock_has_holder_reachable s Hr i Hlock) as [wi Hi].
    rewrite Hw in Hi. discriminate Hi.
  - intros E. destruct (report_outcome_reachable s Hr) as [Hp _].
    rewrite E in Hp. specialize (Hp eq_refl). lia.
Qed.

(** A run without workers, interrupted after two ticks of the clock. *)
Lemma no_workers_no_report_witness :
  let s := default (send_load_start 0 false 0%Q)
             (run (replicate 3 (OpReporter 1%Q) ++ OpSigint
                   :: replicate 7 (OpMain 2%Q))
                  (send_load_start 0 false 0%Q)) in
  total_requests (shared s) = 0 /\ stats_lock (shared s) = None /\
  mpc_of (main s) <> Mreturn.
Proof.
  apply (no_workers_no_report false 0%Q
           (replicate 3 (OpReporter 1%Q) ++ OpSigint
            :: replicate 7 (OpMain 2%Q))).
  vm_compute. reflexivity.
Defined.

(** ** The thread count on the status line *)

Lemma all_alive (ws : list Worker) :
  (forall i w, ws !! i = Some w -> pc w <> Wreturn) ->
  length (List.filter is_alive ws) = length ws.
Proof.
  induction ws as [|a ws IH]; intros H; simpl; [reflexivity|].
  assert (Ha : is_alive a = true).
  { pose proof (H 0%nat a eq_refl) as Hne. unfold is_alive.
    destruct (pc a); try reflexivity. contradiction. }
  rewrite Ha. simpl. f_equal. apply IH.
  intros i w Hi. apply (H (S i) w Hi).
Qed.

Lemma reporter_step_threads now active g r r' printed :
  reporter_step now active g r = Some (r', printed) ->
  Forall (shows_threads (active - 1)) printed.
Proof.
  unfold reporter_step. intros H.
  destruct (rpc_of r); inversion H; subst; repeat constructor.
Qed.

(** X21. While no thread has ended, the thread count on a status line is
    the number of worker threads plus one: [threading.active_count() - 1]
    counts the reporter's own thread along with the workers.  From a state in
    which nothing has stopped, along every schedule without Ctrl+C in which
    every request is answered or raises a [RequestException], every status
    line printed shows the number of workers of that state plus one. *)
Theorem status_line_counts_reporter (ops : list op) (s s' : Sys) :
  nothing_stopped s -> no_sigint ops -> run ops s = Some s' ->
  exists printed,
    stdout s' = stdout s ++ printed /\
    Forall (shows_threads (Z.of_nat (length (workers s)) + 1)) printed.
Proof.
  intros Hns Hno H.
  cut (nothing_stopped s' /\ length (workers s') = length (workers s) /\
       exists printed,
         stdout s' = stdout s ++ printed /\
         Forall (shows_threads (Z.of_nat (length (workers s)) + 1)) printed);
    [tauto|].
  eapply (run_invariant_ops (fun o => o <> OpSigint)
            (fun s1 => nothing_stopped s1 /\
               length (workers s1) = length (workers s) /\
               exists printed,
                 stdout s1 = stdout s ++ printed /\
                 Forall (shows_threads (Z.of_nat (length (workers s)) + 1))
                   printed));
    [ | exact Hno | | exact H ].
  - intros o s1 s2 Ho (Hns1 & Hlen & pr1 & Hout & Hall) He.
    split; [eapply nothing_stopped_exec; eauto|].
    destruct Hns1 as (Hr & Hm & Hw & _).
    apply exec_cases in He as [_ He].
    destruct He as [(i & resp & t & w & g' & w' & _ & _ & _ & ->)
                   |[(t & r' & pr & _ & Hs & ->)
                   |[(t & m' & pr & _ & Hs & ->)|[-> _]]]];
      [| | |contradiction]; simpl.
    + split; [now rewrite length_insert|]. exists pr1. auto.
    + split; [exact Hlen|]. exists (pr1 ++ pr).
      rewrite Hout, app_assoc. split; [reflexivity|].
      apply Forall_app. split; [exact Hall|].
      pose proof (reporter_step_threads _ _ _ _ _ _ Hs) as Hpr.
      unfold active_count in Hpr. rewrite (all_alive _ Hw), Hlen in Hpr.
      replace (2 + Z.of_nat (length (workers s)) - 1)
        with (Z.of_nat (length (workers s)) + 1) in Hpr by lia.
      exact Hpr.
    + split; [exact Hlen|].
      unfold main_step in Hs. rewrite Hm, Hr in Hs. inversion Hs; subst.
      exists pr1. rewrite app_nil_r. auto.
  - split; [exact Hns|]. split; [reflexivity|].
    exists []. rewrite app_nil_r. auto.
Qed.

(** The console after [busy_schedule]: one worker, and a count of two. *)
Lemma status_line_counts_reporter_witness :
  exists printed,
    stdout (default (send_load_start 1 false 0%Q)
              (run busy_schedule (send_load_start 1 false 0%Q)))
      = stdout (send_load_start 1 false 0%Q) ++ printed /\
    Forall (shows_threads
              (Z.of_nat (length (workers (send_load_start 1 false 0%Q))) + 1))
      printed.
Proof.
  apply (status_line_counts_reporter busy_schedule).
  - apply nothing_stopped_start.
  - unfold no_sigint, busy_schedule. simpl.
    repeat (constructor; [discriminate|]). constructor.
  - vm_compute. reflexivity.
Defined.

(** * Every attempt is counted once *)














(** In that run the attempts are the two requests, and both are in the
    counters. *)
Lemma mixed_schedule_attempts :
  attempts mixed_schedule (send_load_start 2 false 0%Q)
    = [Response 200; RequestException] /\
  total_requests (shared mixed_final) = 2 /\
  successful_requests (shared mixed_final) = 1 /\
  failed_requests (shared mixed_final) = 1.
Proof. vm_compute. repeat split; reflexivity. Qed.
